(** * A shallow embedding of [dev/runtime/server.py]

    The Python runtime SDK bridges a skill to its host over stdin/stdout with
    line-delimited JSON-RPC 2.0.  This development embeds [SkillServer] as an
    executable transition system: the Python object's fields, the frames it
    writes, and the part of the asyncio event loop its behaviour depends on
    (the main task running [_run], the tasks detached with
    [asyncio.ensure_future], the timers of [asyncio.wait_for] and
    [call_later]).

    - Skill code (tool handlers and hooks) is a parameter: a tree [prog] of
      the operations it performs on the server and its Context.
    - The world acts on the server through events: [readline] returns a
      line, or a tenth of a second passes.  Code between two suspension
      points runs in no time.
    - [json.loads] and [repr] are parameters of the server; [PyLib] gives
      instances to run it on concrete lines.  [json.dumps] and the flushing
      of stdout are left out: a frame is the object handed to
      [_write_message]. *)

From Stdlib Require Import ZArith NArith QArith String Ascii List Bool Lia.
From Stdlib Require Import Strings.Byte DecimalString.
From stdpp Require Import base option list gmap.
Import ListNotations.

Set Warnings "-register-all".

Local Open Scope string_scope.
Local Open Scope Z_scope.

(** ** Python values decoded from JSON *)

(** A Python [float]: the finite ones are exact rationals. *)
Inductive pyfloat : Type :=
| FFinite (q : Q)
| FInf (negative : bool)
| FNaN.

(** What [json.loads] returns: [None], [bool], [int], [float], [str], [list]
    and [dict] (insertion-ordered, string keys). *)
Inductive json : Type :=
| JNull
| JBool (b : bool)
| JInt (z : Z)
| JFloat (f : pyfloat)
| JStr (s : string)
| JList (l : list json)
| JDict (d : list (string * json)).

(** [d.get(key)] and ["key" in d] on a decoded object. *)
Fixpoint dict_get (d : list (string * json)) (key : string) : option json :=
  match d with
  | [] => None
  | (k, v) :: d' => if String.eqb k key then Some v else dict_get d' key
  end.

Definition dict_has (d : list (string * json)) (key : string) : bool :=
  match dict_get d key with Some _ => true | None => false end.

(** [d.get(key, dflt)]. *)
Definition dict_get_or (d : list (string * json)) (key : string) (dflt : json) : json :=
  match dict_get d key with Some v => v | None => dflt end.

(** Truth value of a decoded value, as [if v:] tests it. *)
Definition truthy (v : json) : bool :=
  match v with
  | JNull => false
  | JBool b => b
  | JInt z => negb (z =? 0)
  | JFloat (FFinite q) => negb (Qnum q =? 0)
  | JFloat _ => true
  | JStr s => negb (String.eqb s "")
  | JList l => match l with [] => false | _ => true end
  | JDict d => match d with [] => false | _ => true end
  end.

(** [type(v).__name__], and the [AttributeError] of [v.get] on a value that
    is no [dict]. *)
Definition type_name (v : json) : string :=
  match v with
  | JNull => "NoneType"
  | JBool _ => "bool"
  | JInt _ => "int"
  | JFloat _ => "float"
  | JStr _ => "str"
  | JList _ => "list"
  | JDict _ => "dict"
  end.

(** [x is not None]. *)
Definition is_not_None (v : json) : bool :=
  match v with JNull => false | _ => true end.

(** [v == "literal"] for a decoded value [v]. *)
Definition str_eq (v : json) (lit : string) : bool :=
  match v with JStr s => String.eqb s lit | _ => false end.

(** How a decoded value behaves as a key of [_pending], whose keys are the
    integers taken from [_next_id]: [bool] is an [int], a [float] with an
    integral value equals that integer, [str] and [None] hash but equal no
    integer, [list] and [dict] raise [TypeError] when they are hashed. *)
Inductive dict_key : Type :=
| KInt (z : Z)
| KOther
| KUnhashable (tyname : string).

Definition hash_key (v : json) : dict_key :=
  match v with
  | JNull => KOther
  | JBool b => KInt (if b then 1 else 0)
  | JInt z => KInt z
  | JFloat (FFinite q) =>
      if (Z.pos (Qden (Qred q)) =? 1) then KInt (Qnum (Qred q)) else KOther
  | JFloat _ => KOther
  | JStr _ => KOther
  | JList _ => KUnhashable "list"
  | JDict _ => KUnhashable "dict"
  end.

(** A message is a Response when it carries [result] or [error]; its id is
    looked up in [_pending] as [hash_key] says. *)
Definition is_response (m : list (string * json)) : bool :=
  dict_has m "result" || dict_has m "error".

Definition response_key (m : list (string * json)) : dict_key :=
  hash_key (dict_get_or m "id" JNull).

(** ** The codec of the transport loop *)

(** [bytes.decode()] is strict UTF-8: [None] stands for [UnicodeDecodeError].
    A Python [str] is kept as the string of its UTF-8 bytes. *)
Definition continuation (b : N) : bool := ((128 <=? b) && (b <=? 191))%N.

Fixpoint utf8_valid (bs : list N) : bool :=
  match bs with
  | [] => true
  | b0 :: r0 =>
      if (b0 <? 128)%N then utf8_valid r0
      else if ((194 <=? b0) && (b0 <=? 223))%N then
        match r0 with
        | b1 :: r1 => continuation b1 && utf8_valid r1
        | _ => false
        end
      else if ((224 <=? b0) && (b0 <=? 239))%N then
        match r0 with
        | b1 :: b2 :: r2 =>
            (if (b0 =? 224)%N then ((160 <=? b1) && (b1 <=? 191))%N
             else if (b0 =? 237)%N then ((128 <=? b1) && (b1 <=? 159))%N
             else continuation b1)
            && continuation b2 && utf8_valid r2
        | _ => false
        end
      else if ((240 <=? b0) && (b0 <=? 244))%N then
        match r0 with
        | b1 :: b2 :: b3 :: r3 =>
            (if (b0 =? 240)%N then ((144 <=? b1) && (b1 <=? 191))%N
             else if (b0 =? 244)%N then ((128 <=? b1) && (b1 <=? 143))%N
             else continuation b1)
            && continuation b2 && continuation b3 && utf8_valid r3
        | _ => false
        end
      else false
  end.

Definition decode (line : list byte) : option string :=
  if utf8_valid (map Byte.to_N line) then Some (string_of_list_byte line) else None.

(** [str.strip()]: the characters with [str.isspace()], in UTF-8. *)
Definition whitespace : list (list N) :=
  [ [9]; [10]; [11]; [12]; [13]; [28]; [29]; [30]; [31]; [32];
    [194; 133]; [194; 160]; [225; 154; 128];
    [226; 128; 128]; [226; 128; 129]; [226; 128; 130]; [226; 128; 131];
    [226; 128; 132]; [226; 128; 133]; [226; 128; 134]; [226; 128; 135];
    [226; 128; 136]; [226; 128; 137]; [226; 128; 138];
    [226; 128; 168]; [226; 128; 169]; [226; 128; 175];
    [226; 129; 159]; [227; 128; 128] ]%N.

Fixpoint strip_prefix (p bs : list N) : option (list N) :=
  match p, bs with
  | [], _ => Some bs
  | x :: p', b :: bs' => if (x =? b)%N then strip_prefix p' bs' else None
  | _ :: _, [] => None
  end.

Fixpoint strip_one (ws : list (list N)) (bs : list N) : option (list N) :=
  match ws with
  | [] => None
  | p :: ws' =>
      match strip_prefix p bs with
      | Some r => Some r
      | None => strip_one ws' bs
      end
  end.

Fixpoint lstrip_with (ws : list (list N)) (fuel : nat) (bs : list N) : list N :=
  match fuel with
  | O => bs
  | S fuel' =>
      match strip_one ws bs with
      | Some r => lstrip_with ws fuel' r
      | None => bs
      end
  end.

Definition strip (s : string) : string :=
  let bs := map Byte.to_N (list_byte_of_string s) in
  let l := lstrip_with whitespace (length bs) bs in
  let r := lstrip_with (map (@rev N) whitespace) (length l) (rev l) in
  string_of_list_byte
    (map (fun n => match Byte.of_N n with Some b => b | None => x00 end) (rev r)).

(** ** Handlers, hooks and the Context they program against *)

(** A Python exception, as far as the server looks at it: its class and
    [str(exc)]. *)
Record exn : Type := Exception { exn_class : string; exn_str : string }.

(** The values a tool handler or a hook returns. *)
Inductive pyval : Type :=
| VNone
| VStr (s : string)
| VToolResult (content : string) (is_error : bool).

Record ToolDefinition : Type := {
  name : string;
  description : string;
  parameters : list (string * json)
}.

(** A coroutine of skill code, by the operations it performs on the server
    and on the Context built by [_create_context]:
    - [ReverseRpc m params k] is [await server._reverse_rpc(m, params)]; [k]
      receives the result or the exception raised at the [await];
    - [EnsureFuture m params k] is
      [asyncio.ensure_future(server._reverse_rpc(m, params))], as
      [ctx.set_state] and [ctx.emit_event] do it;
    - [Log], [ToolsRegister], [ToolsUnregister], [ToolsList] are [ctx.log]
      and the methods of [ctx.tools]. *)
Inductive prog : Type :=
| Return (v : pyval)
| Raise (e : exn)
| ReverseRpc (method : string) (params : option json) (k : json + exn -> prog)
| EnsureFuture (method : string) (params : option json) (k : prog)
| Log (message : string) (k : prog)
| ToolsRegister (d : ToolDefinition) (execute : json -> prog) (k : prog)
| ToolsUnregister (tool_name : string) (k : prog)
| ToolsList (k : list string -> prog).

Record SkillTool : Type := {
  definition : ToolDefinition;
  execute : json -> prog
}.

(** The hooks the server calls; each receives a fresh Context, and some an
    argument taken from [params]. *)
Record SkillHooks : Type := {
  on_load : option prog;
  on_unload : option prog;
  on_session_start : option (json -> prog);
  on_session_end : option (json -> prog);
  on_before_message : option (json -> prog);
  on_after_response : option (json -> prog);
  on_tick : option prog
}.

Record SkillDefinition : Type := {
  tools : list SkillTool;
  hooks : option SkillHooks
}.

Definition no_attribute_get (v : json) : exn :=
  Exception "AttributeError" ("'" ++ type_name v ++ "' object has no attribute 'get'").

(** ** The state of a running server *)

(** Who awaits a future of [_pending]: the main task, suspended inside a
    handler with continuation [k], or a task detached by [ensure_future]. *)
Inductive waiter : Type :=
| MainTask (k : json + exn -> prog)
| Detached.

(** A future of [_pending] with the [_reverse_rpc] frame awaiting it:
    its method and the deadline of its [wait_for]. *)
Record future : Type := {
  fut_method : string;
  fut_deadline : N;
  fut_waiter : waiter;
  fut_done : bool
}.

Inductive exit_reason : Type :=
| Eof
| Exited
| Crashed (e : exn).

(** Where the main task is: suspended in [reader.readline()]; suspended in
    [wait_for] below [_handle_message], which still holds the id of the
    inbound message and what [_dispatch] does with the handler's result; or
    gone. *)
Inductive main_state : Type :=
| AtReadline
| InHandler (msg_id : json) (wrap : pyval -> json + exn) (awaiting : Z)
| Stopped (r : exit_reason).

(** Time is counted in ticks of a tenth of a second: [timeout=30.0] and
    [call_later(0.1, ...)]. *)
Definition REVERSE_RPC_TIMEOUT : N := 300.
Definition SHUTDOWN_DELAY : N := 1.

(** The fields of [SkillServer] ([_tools] in insertion order, as [dict]
    iterates); what was written to stdout and logged to stderr; and the
    event loop: its clock, the main task, the calls detached by
    [ensure_future] that have not started, the lines the reader has
    buffered while the main task was busy, and the time of the exit
    scheduled by [skill/shutdown].  [settled] is a record kept for the
    properties: each future that got an outcome, with the outcome its awaiter
    received. *)
Record bridge : Type := {
  _tools : list (string * SkillTool);
  _hooks : option SkillHooks;
  _pending : gmap Z future;
  _next_id : Z;
  _manifest : option json;
  _data_dir : json;
  stdout : list json;
  stderr : list string;
  clock : N;
  main : main_state;
  ready : list (string * option json);
  inbuf : list (list byte);
  exit_at : option N;
  settled : list (Z * (json + exn))
}.

(** Field updates ([self.x = v]). *)
Definition with_pending (v : gmap Z future) (w : bridge) : bridge :=
  {| _tools := _tools w;
     _hooks := _hooks w;
     _pending := v;
     _next_id := _next_id w;
     _manifest := _manifest w;
     _data_dir := _data_dir w;
     stdout := stdout w;
     stderr := stderr w;
     clock := clock w;
     main := main w;
     ready := ready w;
     inbuf := inbuf w;
     exit_at := exit_at w;
     settled := settled w |}.

Definition with_next_id (v : Z) (w : bridge) : bridge :=
  {| _tools := _tools w;
     _hooks := _hooks w;
     _pending := _pending w;
     _next_id := v;
     _manifest := _manifest w;
     _data_dir := _data_dir w;
     stdout := stdout w;
     stderr := stderr w;
     clock := clock w;
     main := main w;
     ready := ready w;
     inbuf := inbuf w;
     exit_at := exit_at w;
     settled := settled w |}.

Definition with_manifest (v : option json) (w : bridge) : bridge :=
  {| _tools := _tools w;
     _hooks := _hooks w;
     _pending := _pending w;
     _next_id := _next_id w;
     _manifest := v;
     _data_dir := _data_dir w;
     stdout := stdout w;
     stderr := stderr w;
     clock := clock w;
     main := main w;
     ready := ready w;
     inbuf := inbuf w;
     exit_at := exit_at w;
     settled := settled w |}.

Definition with_data_dir (v : json) (w : bridge) : bridge :=
  {| _tools := _tools w;
     _hooks := _hooks w;
     _pending := _pending w;
     _next_id := _next_id w;
     _manifest := _manifest w;
     _data_dir := v;
     stdout := stdout w;
     stderr := stderr w;
     clock := clock w;
     main := main w;
     ready := ready w;
     inbuf := inbuf w;
     exit_at := exit_at w;
     settled := settled w |}.

Definition with_stdout (v : list json) (w : bridge) : bridge :=
  {| _tools := _tools w;
     _hooks := _hooks w;
     _pending := _pending w;
     _next_id := _next_id w;
     _manifest := _manifest w;
     _data_dir := _data_dir w;
     stdout := v;
     stderr := stderr w;
     clock := clock w;
     main := main w;
     ready := ready w;
     inbuf := inbuf w;
     exit_at := exit_at w;
     settled := settled w |}.

Definition with_stderr (v : list string) (w : bridge) : bridge :=
  {| _tools := _tools w;
     _hooks := _hooks w;
     _pending := _pending w;
     _next_id := _next_id w;
     _manifest := _manifest w;
     _data_dir := _data_dir w;
     stdout := stdout w;
     stderr := v;
     clock := clock w;
     main := main w;
     ready := ready w;
     inbuf := inbuf w;
     exit_at := exit_at w;
     settled := settled w |}.

Definition with_clock (v : N) (w : bridge) : bridge :=
  {| _tools := _tools w;
     _hooks := _hooks w;
     _pending := _pending w;
     _next_id := _next_id w;
     _manifest := _manifest w;
     _data_dir := _data_dir w;
     stdout := stdout w;
     stderr := stderr w;
     clock := v;
     main := main w;
     ready := ready w;
     inbuf := inbuf w;
     exit_at := exit_at w;
     settled := settled w |}.

Definition with_main (v : main_state) (w : bridge) : bridge :=
  {| _tools := _tools w;
     _hooks := _hooks w;
     _pending := _pending w;
     _next_id := _next_id w;
     _manifest := _manifest w;
     _data_dir := _data_dir w;
     stdout := stdout w;
     stderr := stderr w;
     clock := clock w;
     main := v;
     ready := ready w;
     inbuf := inbuf w;
     exit_at := exit_at w;
     settled := settled w |}.

Definition with_ready (v : list (string * option json)) (w : bridge) : bridge :=
  {| _tools := _tools w;
     _hooks := _hooks w;
     _pending := _pending w;
     _next_id := _next_id w;
     _manifest := _manifest w;
     _data_dir := _data_dir w;
     stdout := stdout w;
     stderr := stderr w;
     clock := clock w;
     main := main w;
     ready := v;
     inbuf := inbuf w;
     exit_at := exit_at w;
     settled := settled w |}.

Definition with_inbuf (v : list (list byte)) (w : bridge) : bridge :=
  {| _tools := _tools w;
     _hooks := _hooks w;
     _pending := _pending w;
     _next_id := _next_id w;
     _manifest := _manifest w;
     _data_dir := _data_dir w;
     stdout := stdout w;
     stderr := stderr w;
     clock := clock w;
     main := main w;
     ready := ready w;
     inbuf := v;
     exit_at := exit_at w;
     settled := settled w |}.

Definition with_exit_at (v : option N) (w : bridge) : bridge :=
  {| _tools := _tools w;
     _hooks := _hooks w;
     _pending := _pending w;
     _next_id := _next_id w;
     _manifest := _manifest w;
     _data_dir := _data_dir w;
     stdout := stdout w;
     stderr := stderr w;
     clock := clock w;
     main := main w;
     ready := ready w;
     inbuf := inbuf w;
     exit_at := v;
     settled := settled w |}.

Definition with_settled (v : list (Z * (json + exn))) (w : bridge) : bridge :=
  {| _tools := _tools w;
     _hooks := _hooks w;
     _pending := _pending w;
     _next_id := _next_id w;
     _manifest := _manifest w;
     _data_dir := _data_dir w;
     stdout := stdout w;
     stderr := stderr w;
     clock := clock w;
     main := main w;
     ready := ready w;
     inbuf := inbuf w;
     exit_at := exit_at w;
     settled := v |}.

(** The futures the end of the process cancels, and those a clock value
    times out in a detached task. *)
Definition live (kv : Z * future) : Prop := fut_done (snd kv) = false.

Definition timed_out (now : N) (kv : Z * future) : Prop :=
  (fut_deadline (snd kv) <= now)%N /\ fut_done (snd kv) = false
  /\ fut_waiter (snd kv) = Detached.

#[global] Instance waiter_detached_dec (wt : waiter) : Decision (wt = Detached).
Proof. destruct wt; [right; discriminate | left; reflexivity]. Defined.

#[global] Instance timed_out_dec now kv : Decision (timed_out now kv).
Proof. unfold timed_out. apply _. Defined.

#[global] Instance live_dec kv : Decision (live kv).
Proof. unfold live. apply _. Defined.

(** ** The server *)

Section Server.

(** The two library functions the server leans on: [json.loads], with [None]
    for [json.JSONDecodeError], and [repr] of a decoded value that is not a
    [str] (what [str()] and f-strings print for it). *)
Variable json_loads : string -> option json.
Variable py_repr : json -> string.

Definition py_str (v : json) : string :=
  match v with JStr s => s | _ => py_repr v end.

(** *** The reverse calls of the server and the Context over them

    Each awaitable takes the continuation of its caller; a caller that does
    not catch the exception passes [uncaught k]. *)
Definition uncaught (k : json -> prog) (r : json + exn) : prog :=
  match r with inl v => k v | inr e => Raise e end.

Definition get_state (k : json + exn -> prog) : prog :=
  ReverseRpc "state/get" None
    (fun r => match r with
              | inl (JDict d) => k (inl (dict_get_or d "state" JNull))
              | other => k other
              end).

Definition set_state (partial : json) (k : json + exn -> prog) : prog :=
  ReverseRpc "state/set" (Some (JDict [("partial", partial)]))
    (fun r => match r with inl _ => k (inl JNull) | inr e => k (inr e) end).

Definition read_data (filename : string) (k : json + exn -> prog) : prog :=
  ReverseRpc "data/read" (Some (JDict [("filename", JStr filename)]))
    (fun r => match r with
              | inl (JDict d) =>
                  match dict_get d "content" with
                  | Some content => k (inl content)
                  | None => k (inr (Exception "KeyError" "'content'"))
                  end
              | inl result => k (inl (JStr (py_str result)))
              | inr e => k (inr e)
              end).

Definition write_data (filename content : string) (k : json + exn -> prog) : prog :=
  ReverseRpc "data/write"
    (Some (JDict [("filename", JStr filename); ("content", JStr content)]))
    (fun r => match r with inl _ => k (inl JNull) | inr e => k (inr e) end).

Definition emit_event (event_type : string) (data : json) (k : json + exn -> prog) : prog :=
  ReverseRpc "intelligence/emitEvent"
    (Some (JDict [("eventType", JStr event_type); ("data", data)]))
    (fun r => match r with inl _ => k (inl JNull) | inr e => k (inr e) end).

Definition search_entities (query : string) (types limit : option json)
    (k : json + exn -> prog) : prog :=
  ReverseRpc "entities/search"
    (Some (JDict ([("query", JStr query)]
                  ++ match types with Some t => [("types", t)] | None => [] end
                  ++ match limit with Some l => [("limit", l)] | None => [] end)))
    (fun r => match r with
              | inl (JDict d) => k (inl (dict_get_or d "results" (JList [])))
              | inl _ => k (inl (JList []))
              | inr e => k (inr e)
              end).

(** [_Context]: [read_data] and [write_data] await the server's;
    [set_state] and [emit_event] detach them and return at once. *)
Definition ctx_read_data := read_data.
Definition ctx_write_data := write_data.
Definition ctx_get_state := get_state.

Definition ctx_set_state (partial : json) (k : prog) : prog :=
  EnsureFuture "state/set" (Some (JDict [("partial", partial)])) k.

Definition ctx_emit_event (event_name : string) (data : json) (k : prog) : prog :=
  EnsureFuture "intelligence/emitEvent"
    (Some (JDict [("eventType", JStr event_name); ("data", data)])) k.

(** [_Memory.read] swallows every exception. *)
Definition memory_read (file : string) (k : json -> prog) : prog :=
  read_data file (fun r => match r with inl v => k v | inr _ => k JNull end).

Definition memory_write := write_data.

Definition entities_search (query : string) (k : json + exn -> prog) : prog :=
  search_entities query None None k.

(** [log]: one line on stderr per call; [stderr] keeps the messages. *)
Definition log (message : string) (w : bridge) : bridge :=
  with_stderr (stderr w ++ [message]) w.

(** [_write_message]: one frame on stdout per call; [stdout] keeps the
    objects handed to [json.dumps]. *)
Definition _write_message (message : json) (w : bridge) : bridge :=
  with_stdout (stdout w ++ [message]) w.

Definition _send_response (msg_id : json) (result : json) (w : bridge) : bridge :=
  _write_message
    (JDict [("jsonrpc", JStr "2.0"); ("id", msg_id); ("result", result)]) w.

Definition _send_error (msg_id : json) (code : Z) (message : string) (w : bridge) : bridge :=
  _write_message
    (JDict [("jsonrpc", JStr "2.0"); ("id", msg_id);
            ("error", JDict [("code", JInt code); ("message", JStr message)])]) w.

(** [_reverse_rpc] up to its [await]: take an id, build and register the
    future, write the Request.  The deadline is that of
    [wait_for(future, timeout=30.0)]. *)
Definition request_frame (msg_id : Z) (method : string) (params : option json) : json :=
  JDict ([("jsonrpc", JStr "2.0"); ("id", JInt msg_id); ("method", JStr method)]
         ++ match params with Some p => [("params", p)] | None => [] end).

Definition _reverse_rpc (method : string) (params : option json) (wt : waiter)
    (w : bridge) : bridge :=
  let msg_id := _next_id w in
  let fut := {| fut_method := method;
                fut_deadline := (clock w + REVERSE_RPC_TIMEOUT)%N;
                fut_waiter := wt;
                fut_done := false |} in
  _write_message (request_frame msg_id method params)
    (with_pending (<[msg_id := fut]> (_pending w))
       (with_next_id (msg_id + 1) w)).

(** [_reverse_rpc] after a time-out: [except asyncio.TimeoutError]. *)
Definition timeout_error (method : string) : exn :=
  Exception "RuntimeError" ("Reverse RPC timeout: " ++ method).

(** Running skill code in the main task until it returns, raises, or
    suspends in a reverse call. *)
Inductive outcome : Type :=
| Done (r : pyval + exn)
| Blocked (msg_id : Z).

Fixpoint exec (p : prog) (w : bridge) : bridge * outcome :=
  match p with
  | Return v => (w, Done (inl v))
  | Raise e => (w, Done (inr e))
  | ReverseRpc method params k =>
      (_reverse_rpc method params (MainTask k) w, Blocked (_next_id w))
  | EnsureFuture method params k =>
      exec k (with_ready (ready w ++ [(method, params)]) w)
  | Log message k => exec k (log message w)
  | ToolsRegister _ _ k => exec k w
  | ToolsUnregister _ k => exec k w
  | ToolsList k => exec (k (map fst (_tools w))) w
  end.

(** The end of [_handle_message]: the Response, the error Response, or the
    log line of a failed Notification. *)
Definition respond (msg_id : json) (r : json + exn) (w : bridge) : bridge :=
  match r with
  | inl result =>
      if is_not_None msg_id then _send_response msg_id result w else w
  | inr exc =>
      if is_not_None msg_id then _send_error msg_id (-32603) (exn_str exc) w
      else log ("Notification handler error: " ++ exn_str exc) w
  end.

Definition run_handler (msg_id : json) (wrap : pyval -> json + exn) (p : prog)
    (w : bridge) : bridge :=
  match exec p w with
  | (w', Done (inl v)) => respond msg_id (wrap v) (with_main AtReadline w')
  | (w', Done (inr e)) => respond msg_id (inr e) (with_main AtReadline w')
  | (w', Blocked call_id) => with_main (InHandler msg_id wrap call_id) w'
  end.

(** What [_dispatch] does with a method: return or raise at once, or await
    a handler and wrap its result. *)
Inductive dispatched : Type :=
| Immediate (r : json + exn)
| Invoke (p : prog) (wrap : pyval -> json + exn).

Definition ok : json := JDict [("ok", JBool true)].

Definition advertise (t : SkillTool) : json :=
  JDict [("name", JStr (name (definition t)));
         ("description", JStr (description (definition t)));
         ("inputSchema",
          JDict [("type", JStr "object");
                 ("properties",
                  dict_get_or (parameters (definition t)) "properties" (JDict []));
                 ("required",
                  dict_get_or (parameters (definition t)) "required" JNull)])].

Fixpoint tools_get (d : list (string * SkillTool)) (key : string) : option SkillTool :=
  match d with
  | [] => None
  | (k, t) :: d' => if String.eqb k key then Some t else tools_get d' key
  end.

Definition tool_result (result : pyval) : json + exn :=
  match result with
  | VToolResult content is_error =>
      inl (JDict [("content",
                   JList [JDict [("type", JStr "text"); ("text", JStr content)]]);
                  ("isError", JBool is_error)])
  | VNone =>
      inr (Exception "AttributeError" "'NoneType' object has no attribute 'content'")
  | VStr _ =>
      inr (Exception "AttributeError" "'str' object has no attribute 'content'")
  end.

Definition transform (field : string) (result : pyval) : json + exn :=
  inl (JDict [(field, match result with VStr s => JStr s | _ => JNull end)]).

Definition hook0 (h : SkillHooks -> option prog) (w : bridge) : dispatched :=
  match _hooks w with
  | Some hs =>
      match h hs with
      | Some p => Invoke p (fun _ => inl ok)
      | None => Immediate (inl ok)
      end
  | None => Immediate (inl ok)
  end.

Definition hook1 (h : SkillHooks -> option (json -> prog)) (arg : json)
    (wrap : pyval -> json + exn) (dflt : json) (w : bridge) : dispatched :=
  match _hooks w with
  | Some hs =>
      match h hs with
      | Some f => Invoke (f arg) wrap
      | None => Immediate (inl dflt)
      end
  | None => Immediate (inl dflt)
  end.

Definition _dispatch (method : json) (params : json) (w : bridge)
    : bridge * dispatched :=
  let p := match params with JDict d => d | _ => [] end in
  if str_eq method "tools/list" then
    (w, Immediate (inl (JDict [("tools", JList (map (fun kt => advertise (snd kt)) (_tools w)))])))
  else if str_eq method "tools/call" then
    let tool_name := dict_get_or p "name" (JStr "") in
    let args := dict_get_or p "arguments" (JDict []) in
    match tool_name with
    | JList _ => (w, Immediate (inr (Exception "TypeError" "unhashable type: 'list'")))
    | JDict _ => (w, Immediate (inr (Exception "TypeError" "unhashable type: 'dict'")))
    | _ =>
        match (match tool_name with JStr s => tools_get (_tools w) s | _ => None end) with
        | None =>
            (w, Immediate (inr (Exception "ValueError" ("Unknown tool: " ++ py_str tool_name))))
        | Some tool => (w, Invoke (execute tool args) tool_result)
        end
    end
  else if str_eq method "skill/load" then
    let w1 := if truthy (dict_get_or p "manifest" JNull)
              then with_manifest (dict_get p "manifest") w else w in
    let w2 := if truthy (dict_get_or p "dataDir" JNull)
              then with_data_dir (dict_get_or p "dataDir" JNull) w1 else w1 in
    (w2, hook0 on_load w2)
  else if str_eq method "skill/unload" then (w, hook0 on_unload w)
  else if str_eq method "skill/activate" then (w, Immediate (inl ok))
  else if str_eq method "skill/deactivate" then (w, Immediate (inl ok))
  else if str_eq method "skill/sessionStart" then
    (w, hook1 on_session_start (dict_get_or p "sessionId" (JStr "")) (fun _ => inl ok) ok w)
  else if str_eq method "skill/sessionEnd" then
    (w, hook1 on_session_end (dict_get_or p "sessionId" (JStr "")) (fun _ => inl ok) ok w)
  else if str_eq method "skill/beforeMessage" then
    (w, hook1 on_before_message (dict_get_or p "message" (JStr ""))
          (transform "message") (JDict [("message", JNull)]) w)
  else if str_eq method "skill/afterResponse" then
    (w, hook1 on_after_response (dict_get_or p "response" (JStr ""))
          (transform "response") (JDict [("response", JNull)]) w)
  else if str_eq method "skill/tick" then (w, hook0 on_tick w)
  else if str_eq method "skill/shutdown" then
    (with_exit_at
       (Some (match exit_at w with
              | Some t => N.min t (clock w + SHUTDOWN_DELAY)
              | None => (clock w + SHUTDOWN_DELAY)%N
              end)) w,
     Immediate (inl ok))
  else (w, Immediate (inr (Exception "ValueError" ("Unknown method: " ++ py_str method)))).

(** The end of the process: [asyncio.run] cancels every task that is left.
    A task cancelled in [wait_for] cancels its future and lets
    [CancelledError] through, so the entry stays in [_pending]; a task that
    never started never runs. *)
Definition cancelled_error : exn := Exception "CancelledError" "".

Definition cancel (fut : future) : future :=
  {| fut_method := fut_method fut;
     fut_deadline := fut_deadline fut;
     fut_waiter := fut_waiter fut;
     fut_done := true |}.

Definition stop (r : exit_reason) (w : bridge) : bridge :=
  with_main (Stopped r)
    (with_ready []
       (with_settled
          (settled w ++
           map (fun kv => (fst kv, inr cancelled_error))
               (map_to_list (filter live (_pending w))))
          (with_pending (cancel <$> _pending w) w))).

(** [future.set_result] and [future.set_exception] on a future taken out of
    [_pending]: its awaiter gets the outcome. *)
Definition settle (msg_id : Z) (r : json + exn) (w : bridge) : bridge :=
  with_settled (settled w ++ [(msg_id, r)]) w.

(** [_pending.pop(msg_id, None)] hashes its key only when the dict holds
    something: on an empty dict it returns the default at once, so an [id]
    that cannot be hashed raises [TypeError] only while a call is
    registered. *)
Definition _handle_message (message : json) (w : bridge) : bridge :=
  match message with
  | JDict m =>
      if dict_has m "result" || dict_has m "error" then
        match hash_key (dict_get_or m "id" JNull) with
        | KUnhashable ty =>
            if Nat.eqb (size (_pending w)) 0%nat then w
            else stop (Crashed (Exception "TypeError" ("unhashable type: '" ++ ty ++ "'"))) w
        | KOther => w
        | KInt msg_id =>
            match _pending w !! msg_id with
            | None => w
            | Some fut =>
                let w1 := with_pending (delete msg_id (_pending w)) w in
                if negb (fut_done fut) then
                  if dict_has m "error" then
                    match dict_get_or m "error" JNull with
                    | JDict e =>
                        settle msg_id
                          (inr (Exception "RuntimeError"
                                  (py_str (dict_get_or e "message" (JStr "Reverse RPC error")))))
                          w1
                    | e => stop (Crashed (no_attribute_get e)) w1
                    end
                  else settle msg_id (inl (dict_get_or m "result" JNull)) w1
                else w1
            end
        end
      else
        let method := dict_get_or m "method" (JStr "") in
        let params := dict_get_or m "params" JNull in
        let msg_id := dict_get_or m "id" JNull in
        match _dispatch method params w with
        | (w1, Immediate r) => respond msg_id r w1
        | (w1, Invoke p wrap) => run_handler msg_id wrap p w1
        end
  | JList _ | JStr _ => stop (Crashed (no_attribute_get message)) w
  | _ =>
      stop (Crashed (Exception "TypeError"
                       ("argument of type '" ++ type_name message ++ "' is not iterable"))) w
  end.

(** One turn of the [while True] of [_run] on the line [readline] returned
    ([b""] at end of input).  The text of the [UnicodeDecodeError] stands
    for the message of the codec, which names the byte and its position;
    [json.loads] is taken to raise nothing but [JSONDecodeError]. *)
Definition loop_body (line : list byte) (w : bridge) : bridge :=
  match line with
  | [] => stop Eof w
  | _ =>
      match decode line with
      | None => stop (Crashed (Exception "UnicodeDecodeError" "invalid utf-8")) w
      | Some text =>
          let trimmed := strip text in
          if String.eqb trimmed "" then w
          else
            match json_loads trimmed with
            | None => log ("Failed to parse JSON-RPC message: " ++ trimmed) w
            | Some message => _handle_message message w
            end
      end
  end.

(** [readline] returned [line], and it decodes to the message [msg]. *)
Definition reads (line : list byte) (msg : json) : Prop :=
  line <> [] /\
  exists text, decode line = Some text /\ String.eqb (strip text) "" = false
               /\ json_loads (strip text) = Some msg.

(** Back at [readline] with lines already in the reader's buffer, the main
    task takes them one after the other without yielding. *)
Fixpoint drain (buf : list (list byte)) (w : bridge) : bridge :=
  match buf with
  | [] => with_inbuf [] w
  | line :: rest =>
      let w' := loop_body line (with_inbuf rest w) in
      match main w' with
      | AtReadline => drain rest w'
      | _ => w'
      end
  end.

(** Timers.  A detached task whose [wait_for] times out removes its entry and
    dies with the [RuntimeError]; the main task resumes in its handler. *)
Definition expire_detached (w : bridge) : bridge :=
  with_settled
    (settled w ++
     map (fun kv => (fst kv, inr (timeout_error (fut_method (snd kv)))))
         (map_to_list (filter (timed_out (clock w)) (_pending w))))
    (with_pending (filter (fun kv => ~ timed_out (clock w) kv) (_pending w)) w).

Definition expire_main (w : bridge) : bridge :=
  match main w with
  | InHandler msg_id wrap call_id =>
      match _pending w !! call_id with
      | Some fut =>
          match fut_waiter fut with
          | MainTask k =>
              if (fut_deadline fut <=? clock w)%N && negb (fut_done fut) then
                let e := timeout_error (fut_method fut) in
                let w1 := settle call_id (inr e)
                            (with_pending (delete call_id (_pending w)) w) in
                let w2 := run_handler msg_id wrap (k (inr e)) w1 in
                match main w2 with
                | AtReadline => drain (inbuf w2) w2
                | _ => w2
                end
              else w
          | Detached => w
          end
      | None => w
      end
  | _ => w
  end.

(** A tick: the clock moves; the exit scheduled by [skill/shutdown], when it
    is due, ends the process before anything else runs; otherwise the
    [wait_for] timers that are due fire. *)
Definition tick (w : bridge) : bridge :=
  let w1 := with_clock (clock w + 1)%N w in
  match exit_at w1 with
  | Some t =>
      if (t <=? clock w1)%N then stop Exited w1
      else expire_main (expire_detached w1)
  | None => expire_main (expire_detached w1)
  end.

(** When the main task suspends, the tasks made by [ensure_future] start:
    each runs [_reverse_rpc] up to its [await]. *)
Definition start_ready (w : bridge) : bridge :=
  match main w with
  | Stopped _ => w
  | _ =>
      fold_left (fun w' call => _reverse_rpc (fst call) (snd call) Detached w')
                (ready w) (with_ready [] w)
  end.

(** What the world does to the server: [readline] gets a line ([b""] when
    stdin is closed), or a tenth of a second passes. *)
Inductive event : Type :=
| EvRead (line : list byte)
| EvTick.

(** The server takes an event.  A line reaches the main task when it is
    suspended in [readline] and waits in the reader's buffer when it is
    suspended in a handler; a gone process takes nothing.  Each line is an
    event of its own: [readline] had to wait for it, so the detached tasks
    start once the main task is back at [readline].  The length limit of
    the reader is left out. *)
Definition step (w : bridge) (ev : event) : bridge :=
  match main w with
  | Stopped _ => w
  | AtReadline =>
      match ev with
      | EvRead line => start_ready (loop_body line w)
      | EvTick => start_ready (tick w)
      end
  | InHandler _ _ _ =>
      match ev with
      | EvRead line => with_inbuf (inbuf w ++ [line]) w
      | EvTick => start_ready (tick w)
      end
  end.

Definition run (w : bridge) (evs : list event) : bridge := fold_left step evs w.

End Server.

(** [SkillServer.__init__] and the start of [_run]. *)
Fixpoint tools_set (d : list (string * SkillTool)) (key : string) (t : SkillTool)
    : list (string * SkillTool) :=
  match d with
  | [] => [(key, t)]
  | (k, t') :: d' =>
      if String.eqb k key then (k, t) :: d' else (k, t') :: tools_set d' key t
  end.

Definition init (skill : SkillDefinition) : bridge :=
  {| _tools := fold_left (fun d t => tools_set d (name (definition t)) t) (tools skill) [];
     _hooks := hooks skill;
     _pending := ∅;
     _next_id := 1;
     _manifest := None;
     _data_dir := JStr "";
     stdout := [];
     stderr := [];
     clock := 0%N;
     main := AtReadline;
     ready := [];
     inbuf := [];
     exit_at := None;
     settled := [] |}.

(** [_Context.data_dir]: the directory the host gave, or the default under
    the id of the manifest. *)
Definition data_dir (py_repr : json -> string) (w : bridge) : json + exn :=
  if truthy (_data_dir w) then inl (_data_dir w)
  else
    let manifest := match _manifest w with
                    | Some m => if truthy m then m else JDict []
                    | None => JDict []
                    end in
    match manifest with
    | JDict d =>
        inl (JStr ("skills/" ++ py_str py_repr (dict_get_or d "id" (JStr "unknown")) ++ "/data"))
    | other => inr (no_attribute_get other)
    end.

(** The two methods with a transform contract, with the field of [params]
    and of the result they use and the hook they call. *)
Inductive transform_hook : Type :=
| BeforeMessage
| AfterResponse.

Definition transform_method (h : transform_hook) : string :=
  match h with
  | BeforeMessage => "skill/beforeMessage"
  | AfterResponse => "skill/afterResponse"
  end.

Definition transform_field (h : transform_hook) : string :=
  match h with
  | BeforeMessage => "message"
  | AfterResponse => "response"
  end.

Definition transform_slot (h : transform_hook) : SkillHooks -> option (json -> prog) :=
  match h with
  | BeforeMessage => on_before_message
  | AfterResponse => on_after_response
  end.

(** ** A decoder and a printer to run the server on concrete lines

    [loads] reads the JSON texts of RFC 8259 plus Python's [NaN], [Infinity]
    and [-Infinity]; a number with a fraction or an exponent is kept at its
    exact decimal value.  [repr] prints [None], [bool], [int], and containers
    of them. *)
Module PyLib.

Definition is_ws (c : N) : bool :=
  ((c =? 32) || (c =? 9) || (c =? 10) || (c =? 13))%N.

Fixpoint skip_ws (s : list N) : list N :=
  match s with
  | c :: r => if is_ws c then skip_ws r else s
  | [] => []
  end.

Definition is_digit (c : N) : bool := ((48 <=? c) && (c <=? 57))%N.

(** Digits, most significant first, onto an accumulator: value and count. *)
Fixpoint digits (s : list N) (acc : Z) (count : nat) : Z * nat * list N :=
  match s with
  | c :: r =>
      if is_digit c then digits r (10 * acc + Z.of_N (c - 48)) (S count)
      else (acc, count, s)
  | [] => (acc, count, [])
  end.

Definition hex_digit (c : N) : option N :=
  if is_digit c then Some (c - 48)%N
  else if ((97 <=? c) && (c <=? 102))%N then Some (c - 87)%N
  else if ((65 <=? c) && (c <=? 70))%N then Some (c - 55)%N
  else None.

Definition hex4 (s : list N) : option (N * list N) :=
  match s with
  | a :: b :: c :: d :: r =>
      match hex_digit a, hex_digit b, hex_digit c, hex_digit d with
      | Some x, Some y, Some z, Some t => Some (((x * 16 + y) * 16 + z) * 16 + t, r)%N
      | _, _, _, _ => None
      end
  | _ => None
  end.

(** The UTF-8 bytes of a code point (a lone surrogate gets three bytes). *)
Definition utf8_encode (cp : N) : list N :=
  if (cp <? 128)%N then [cp]
  else if (cp <? 2048)%N then [192 + cp / 64; 128 + cp mod 64]%N
  else if (cp <? 65536)%N then
    [224 + cp / 4096; 128 + (cp / 64) mod 64; 128 + cp mod 64]%N
  else
    [240 + cp / 262144; 128 + (cp / 4096) mod 64; 128 + (cp / 64) mod 64;
     128 + cp mod 64]%N.

Definition to_string (bs : list N) : string :=
  string_of_list_byte
    (map (fun n => match Byte.of_N n with Some b => b | None => x00 end) bs).

Definition of_string (s : string) : list N :=
  map Byte.to_N (list_byte_of_string s).

(** The body of a string, after its opening quote. *)
Fixpoint string_body (fuel : nat) (s : list N) (acc : list N) : option (string * list N) :=
  match fuel with
  | O => None
  | S n =>
      match s with
      | [] => None
      | c :: r =>
          if (c =? 34)%N then Some (to_string (rev acc), r)
          else if (c <? 32)%N then None
          else if (c =? 92)%N then
            match r with
            | e :: r' =>
                if (e =? 117)%N then
                  match hex4 r' with
                  | Some (hi, r2) =>
                      if ((55296 <=? hi) && (hi <=? 56319))%N then
                        match r2 with
                        | 92%N :: 117%N :: r3 =>
                            match hex4 r3 with
                            | Some (lo, r4) =>
                                if ((56320 <=? lo) && (lo <=? 57343))%N then
                                  string_body n r4
                                    (rev (utf8_encode (65536 + (hi - 55296) * 1024 + (lo - 56320))%N) ++ acc)
                                else string_body n r2 (rev (utf8_encode hi) ++ acc)
                            | None => string_body n r2 (rev (utf8_encode hi) ++ acc)
                            end
                        | _ => string_body n r2 (rev (utf8_encode hi) ++ acc)
                        end
                      else string_body n r2 (rev (utf8_encode hi) ++ acc)
                  | None => None
                  end
                else
                  match (if (e =? 34)%N then Some 34
                         else if (e =? 92)%N then Some 92
                         else if (e =? 47)%N then Some 47
                         else if (e =? 98)%N then Some 8
                         else if (e =? 102)%N then Some 12
                         else if (e =? 110)%N then Some 10
                         else if (e =? 114)%N then Some 13
                         else if (e =? 116)%N then Some 9
                         else None)%N with
                  | Some x => string_body n r' (x :: acc)
                  | None => None
                  end
            | [] => None
            end
          else string_body n r (c :: acc)
      end
  end.

(** A number, from its first digit; [neg] when a minus sign came before. *)
Definition number (neg : bool) (s : list N) : option (json * list N) :=
  let sign := fun z : Z => if neg then - z else z in
  let '(int_part, int_count, r) :=
    match s with
    | 48%N :: r0 => (0, 1%nat, r0)
    | _ => digits s 0 0%nat
    end in
  match int_count with
  | O => None
  | _ =>
      let '(mant, frac_count, r1, has_frac) :=
        match r with
        | 46%N :: c :: r0 =>
            if is_digit c then
              let '(m, k, r') := digits (c :: r0) int_part 0%nat in (m, k, r', true)
            else (int_part, 0%nat, r, false)
        | _ => (int_part, 0%nat, r, false)
        end in
      let exponent :=
        match r1 with
        | e :: r2 =>
            if ((e =? 101) || (e =? 69))%N then
              let '(eneg, r3) :=
                match r2 with
                | 45%N :: r' => (true, r')
                | 43%N :: r' => (false, r')
                | _ => (false, r2)
                end in
              match digits r3 0 0%nat with
              | (_, O, _) => None
              | (x, _, r4) => Some (if eneg then - x else x, r4)
              end
            else None
        | [] => None
        end in
      match has_frac, exponent with
      | false, None => Some (JInt (sign int_part), r1)
      | _, _ =>
          let '(ex, rest) := match exponent with Some (x, r') => (x, r') | None => (0, r1) end in
          let e10 := ex - Z.of_nat frac_count in
          let q := if e10 <? 0
                   then Qmake (sign mant) (Z.to_pos (10 ^ (- e10)))
                   else Qmake (sign mant * 10 ^ e10) 1 in
          Some (JFloat (FFinite (Qred q)), rest)
      end
  end.

Fixpoint dict_put (d : list (string * json)) (key : string) (v : json)
    : list (string * json) :=
  match d with
  | [] => [(key, v)]
  | (k, v') :: d' =>
      if String.eqb k key then (k, v) :: d' else (k, v') :: dict_put d' key v
  end.

Fixpoint value (fuel : nat) (s : list N) : option (json * list N) :=
  match fuel with
  | O => None
  | S n =>
      match skip_ws s with
      | 123%N :: r =>
          match skip_ws r with
          | 125%N :: r' => Some (JDict [], r')
          | r' => members n r' []
          end
      | 91%N :: r =>
          match skip_ws r with
          | 93%N :: r' => Some (JList [], r')
          | r' => elements n r' []
          end
      | 34%N :: r =>
          match string_body (S (length r)) r [] with
          | Some (str, r') => Some (JStr str, r')
          | None => None
          end
      | 110%N :: 117%N :: 108%N :: 108%N :: r => Some (JNull, r)
      | 116%N :: 114%N :: 117%N :: 101%N :: r => Some (JBool true, r)
      | 102%N :: 97%N :: 108%N :: 115%N :: 101%N :: r => Some (JBool false, r)
      | 78%N :: 97%N :: 78%N :: r => Some (JFloat FNaN, r)
      | 73%N :: 110%N :: 102%N :: 105%N :: 110%N :: 105%N :: 116%N :: 121%N :: r =>
          Some (JFloat (FInf false), r)
      | 45%N :: 73%N :: 110%N :: 102%N :: 105%N :: 110%N :: 105%N :: 116%N :: 121%N :: r =>
          Some (JFloat (FInf true), r)
      | 45%N :: r => number true r
      | r => number false r
      end
  end
with elements (fuel : nat) (s : list N) (acc : list json) : option (json * list N) :=
  match fuel with
  | O => None
  | S n =>
      match value n s with
      | Some (v, r) =>
          match skip_ws r with
          | 44%N :: r' => elements n r' (v :: acc)
          | 93%N :: r' => Some (JList (rev (v :: acc)), r')
          | _ => None
          end
      | None => None
      end
  end
with members (fuel : nat) (s : list N) (acc : list (string * json)) : option (json * list N) :=
  match fuel with
  | O => None
  | S n =>
      match skip_ws s with
      | 34%N :: r =>
          match string_body (S (length r)) r [] with
          | Some (key, r1) =>
              match skip_ws r1 with
              | 58%N :: r2 =>
                  match value n r2 with
                  | Some (v, r3) =>
                      match skip_ws r3 with
                      | 44%N :: r4 => members n r4 (dict_put acc key v)
                      | 125%N :: r4 => Some (JDict (dict_put acc key v), r4)
                      | _ => None
                      end
                  | None => None
                  end
              | _ => None
              end
          | None => None
          end
      | _ => None
      end
  end.

Definition loads (text : string) : option json :=
  let s := of_string text in
  match value (2 * length s + 2) s with
  | Some (v, r) => match skip_ws r with [] => Some v | _ => None end
  | None => None
  end.

Definition decimal (z : Z) : string :=
  DecimalString.NilZero.string_of_int (Z.to_int z).

Fixpoint repr (v : json) : string :=
  match v with
  | JNull => "None"
  | JBool true => "True"
  | JBool false => "False"
  | JInt z => decimal z
  | JFloat _ => "float"
  | JStr s => "'" ++ s ++ "'"
  | JList l =>
      "[" ++ (fix items (l : list json) : string :=
                match l with
                | [] => ""
                | [x] => repr x
                | x :: l' => repr x ++ ", " ++ items l'
                end) l ++ "]"
  | JDict d =>
      "{" ++ (fix items (d : list (string * json)) : string :=
                match d with
                | [] => ""
                | [(k, x)] => "'" ++ k ++ "': " ++ repr x
                | (k, x) :: d' => "'" ++ k ++ "': " ++ repr x ++ ", " ++ items d'
                end) d ++ "}"
  end.

End PyLib.

(** ** Concrete skills, lines and runs *)

(** JSON text is written with ['] for the double quote. *)
Definition quote_char (c : ascii) : ascii :=
  if Ascii.eqb c "'"%char then ascii_of_nat 34 else c.

Fixpoint dq (s : string) : string :=
  match s with
  | EmptyString => EmptyString
  | String c r => String (quote_char c) (dq r)
  end.

(** A line as [readline] returns it, with its newline. *)
Definition line (text : string) : list byte :=
  list_byte_of_string (dq text) ++ [x0a].

Definition EvLine (text : string) : event := EvRead (line text).
Definition EvEof : event := EvRead [].

Definition step' : bridge -> event -> bridge := step PyLib.loads PyLib.repr.
Definition run' : bridge -> list event -> bridge := run PyLib.loads PyLib.repr.

(** A skill in the shape of the kitchen-sink example: [add_note] awaits
    [ctx.write_data], then calls [ctx.set_state], and reports. *)
Definition execute_add_note (args : json) : prog :=
  let title := match args with
               | JDict d => py_str PyLib.repr (dict_get_or d "title" (JStr "Untitled"))
               | _ => "Untitled"
               end in
  ctx_write_data "note_1.json" title
    (uncaught (fun _ =>
       ctx_set_state (JDict [("notes_index", JList [JStr "note_1"])])
         (Return (VToolResult ("Note '" ++ title ++ "' saved as note_1.") false)))).

Definition add_note : SkillTool :=
  {| definition :=
       {| name := "add_note";
          description := "Save a note";
          parameters :=
            [("type", JStr "object");
             ("properties", JDict [("title", JDict [("type", JStr "string")]);
                                   ("body", JDict [("type", JStr "string")])]);
             ("required", JList [JStr "title"])] |};
     execute := execute_add_note |}.

Definition notes_skill : SkillDefinition :=
  {| tools := [add_note]; hooks := None |}.

Definition scenario_B : string :=
  "{'jsonrpc':'2.0','id':2,'method':'tools/call','params':{'name':'add_note','arguments':{'title':'x','body':'y'}}}".

(** The kitchen-sink example, as far as its hooks touch the server: loading
    registers a tool through [ctx.tools], unloading and ticking detach a
    reverse call, and the message hook returns the empty string. *)
Definition advanced_analytics : ToolDefinition :=
  {| name := "advanced_analytics";
     description := "Run advanced on-chain analytics (advanced users only).";
     parameters :=
       [("type", JStr "object");
        ("properties", JDict [("protocol", JDict [("type", JStr "string")])]);
        ("required", JList [JStr "protocol"])] |}.

Definition execute_dynamic_tool (args : json) : prog :=
  Return (VToolResult "Hello User! This tool was registered dynamically." false).

Definition register_dynamic_tools : prog :=
  ToolsRegister advanced_analytics execute_dynamic_tool
    (Log "kitchen-sink: registered advanced_analytics tool" (Return VNone)).

Definition kitchen_hooks : SkillHooks :=
  {| on_load := Some register_dynamic_tools;
     on_unload :=
       Some (ctx_set_state (JDict [("unloaded_at", JStr "now")]) (Return VNone));
     on_session_start := None;
     on_session_end := None;
     on_before_message := Some (fun _ => Return (VStr ""));
     on_after_response := Some (fun _ => Return VNone);
     on_tick :=
       Some (ctx_emit_event "summary" (JDict [("ticks", JInt 10)]) (Return VNone)) |}.

Definition kitchen_sink : SkillDefinition :=
  {| tools := [add_note]; hooks := Some kitchen_hooks |}.

(** The advertisement of [add_note] in a [tools/list] result. *)
Definition add_note_advert : json :=
  JDict [("name", JStr "add_note");
         ("description", JStr "Save a note");
         ("inputSchema",
          JDict [("type", JStr "object");
                 ("properties",
                  JDict [("title", JDict [("type", JStr "string")]);
                         ("body", JDict [("type", JStr "string")])]);
                 ("required", JList [JStr "title"])])].

Definition response (msg_id : Z) (result : json) : json :=
  JDict [("jsonrpc", JStr "2.0"); ("id", JInt msg_id); ("result", result)].

Definition error_response (msg_id : Z) (code : Z) (message : string) : json :=
  JDict [("jsonrpc", JStr "2.0"); ("id", JInt msg_id);
         ("error", JDict [("code", JInt code); ("message", JStr message)])].

(** ** The vocabulary of the properties *)

(** The process is running. *)
Definition alive (w : bridge) : Prop :=
  match main w with Stopped _ => False | _ => True end.

(** Every registered call has an id below [_next_id], is not settled, and
    has its deadline ahead, at most the time-out away. *)
Definition reg (w : bridge) : Prop :=
  forall msg_id fut, _pending w !! msg_id = Some fut ->
    msg_id < _next_id w
    /\ (clock w < fut_deadline fut <= clock w + REVERSE_RPC_TIMEOUT)%N
    /\ fut_done fut = false.

(** No pending call is awaited by the main task. *)
Definition idle (w : bridge) : Prop :=
  forall msg_id fut, _pending w !! msg_id = Some fut -> fut_waiter fut = Detached.

(** The only call the main task can await is the one it is suspended in. *)
Definition main_ok (w : bridge) : Prop :=
  forall msg_id fut k, _pending w !! msg_id = Some fut -> fut_waiter fut = MainTask k ->
    exists mid wrap, main w = InHandler mid wrap msg_id.

(** From [w] to [w']: ids are only taken, settlements only added, and an id
    that was taken and is no longer pending never comes back. *)
Definition frame (w w' : bridge) : Prop :=
  _next_id w <= _next_id w'
  /\ (forall x, In x (settled w) -> In x (settled w'))
  /\ (forall msg_id, msg_id < _next_id w -> _pending w !! msg_id = None ->
        _pending w' !! msg_id = None).

(** [msg] is a Response whose id is the key [i] of [_pending]; [line] is a
    line that decodes to such a Response. *)
Definition is_answer (msg : json) (i : Z) : Prop :=
  exists m, msg = JDict m /\ is_response m = true /\ response_key m = KInt i.

Definition answers (loads : string -> option json) (i : Z) (line : list byte) : Prop :=
  exists msg, reads loads line msg /\ is_answer msg i.

(** The registry just after the clock moved: a detached call that is still
    there is not due; only the call of the main task may be. *)
Definition reg_due (w : bridge) : Prop :=
  forall msg_id fut, _pending w !! msg_id = Some fut ->
    msg_id < _next_id w
    /\ (fut_deadline fut <= clock w + REVERSE_RPC_TIMEOUT)%N
    /\ fut_done fut = false
    /\ (fut_waiter fut = Detached -> (clock w < fut_deadline fut)%N).

(** The time that passes during a list of events. *)
Fixpoint ticks (evs : list event) : N :=
  match evs with
  | [] => 0
  | EvTick :: evs' => 1 + ticks evs'
  | EvRead _ :: evs' => ticks evs'
  end%N.

(** The methods [_dispatch] knows. *)
Definition implemented_methods : list string :=
  ["tools/list"; "tools/call"; "skill/load"; "skill/unload"; "skill/activate";
   "skill/deactivate"; "skill/sessionStart"; "skill/sessionEnd";
   "skill/beforeMessage"; "skill/afterResponse"; "skill/tick"; "skill/shutdown"].


(** ** The vocabulary of the further properties *)

(** The id of a frame that is a Request: it has a [method]. *)
Definition request_id (frame : json) : option Z :=
  match frame with
  | JDict d =>
      if dict_has d "method"
      then match dict_get d "id" with Some (JInt z) => Some z | _ => None end
      else None
  | _ => None
  end.

Definition request_ids (out : list json) : list Z := omap request_id out.

(** From [w] to [w']: the registry and the hooks are the same, and the
    frames written in between carry, as Requests, exactly the ids taken in
    between, in order. *)
Definition emits (w w' : bridge) : Prop :=
  _tools w' = _tools w /\ _hooks w' = _hooks w /\ _next_id w <= _next_id w'
  /\ exists frames, stdout w' = (stdout w ++ frames)%list
       /\ request_ids frames = seqZ (_next_id w) (_next_id w' - _next_id w).

(** Every key of a registry is the name of its tool. *)
Definition named (d : list (string * SkillTool)) : Prop :=
  forall k t, In (k, t) d -> name (definition t) = k.

(** The future [_reverse_rpc] registers for a detached call of [method]. *)
Definition detached (w : bridge) (method : string) : future :=
  {| fut_method := method;
     fut_deadline := (clock w + REVERSE_RPC_TIMEOUT)%N;
     fut_waiter := Detached;
     fut_done := false |}.

(** The books of the reverse calls are in order: no call has two outcomes,
    every registered call took its id from [_next_id] and its Request is on
    stdout, and a call that has its outcome is no longer awaited. *)
Definition once (w : bridge) : Prop :=
  NoDup (map fst (settled w))
  /\ 1 <= _next_id w
  /\ (forall i fut, _pending w !! i = Some fut ->
        1 <= i < _next_id w
        /\ exists params, In (request_frame i (fut_method fut) params) (stdout w))
  /\ (forall i, In i (map fst (settled w)) ->
        i < _next_id w
        /\ forall fut, _pending w !! i = Some fut -> fut_done fut = true).

(** A line that is no message: it decodes, and is blank or no JSON text. *)
Definition noise (loads : string -> option json) (line : list byte) : Prop :=
  line <> [] /\
  exists text, decode line = Some text
               /\ (String.eqb (strip text) "" = true \/ loads (strip text) = None).

(** What the loop logs for such lines. *)
Definition parse_failures (lines : list (list byte)) : list string :=
  flat_map (fun line =>
              match decode line with
              | Some text =>
                  if String.eqb (strip text) "" then []
                  else ["Failed to parse JSON-RPC message: " ++ strip text]
              | None => []
              end) lines.



(** The lines that arrive during a list of events. *)
Fixpoint lines (evs : list event) : list (list byte) :=
  match evs with
  | [] => []
  | EvRead line :: evs' => line :: lines evs'
  | EvTick :: evs' => lines evs'
  end.






(** A skill with two tools of one name. *)
Definition late_add_note : SkillTool :=
  {| definition := definition add_note; execute := execute_dynamic_tool |}.

Definition twice_skill : SkillDefinition :=
  {| tools := [add_note; late_add_note]; hooks := None |}.

(** * Properties *)

(** ** The runs of the spec's scenarios *)

(** Scenario A: [tools/list] lists the registered tool. *)
Example scenario_A :
  stdout (run' (init notes_skill) [EvLine "{'jsonrpc':'2.0','id':1,'method':'tools/list'}"])
  = [response 1 (JDict [("tools", JList [add_note_advert])])].
Proof. vm_compute. reflexivity. Qed.

(** C1. Scenario B on the code: [add_note] awaits [data/write] inside the
    dispatch of [tools/call].  The Request with id 1 is written, the host's
    Response to it is on the next line, and the server does not read it: the
    call times out after 300 ticks, [state/set] is never sent, and the
    [tools/call] is answered with error -32603. *)
Theorem scenario_B_handler_call_unanswered :
  let w := run' (init notes_skill)
             ([EvLine scenario_B; EvLine "{'jsonrpc':'2.0','id':1,'result':{'ok':true}}"]
              ++ repeat EvTick 300) in
  stdout w
  = [request_frame 1 "data/write"
       (Some (JDict [("filename", JStr "note_1.json"); ("content", JStr "x")]));
     error_response 2 (-32603) "Reverse RPC timeout: data/write"]
  /\ settled w = [(1, inr (timeout_error "data/write"))]
  /\ main w = AtReadline.
Proof. vm_compute. repeat split; reflexivity. Qed.

(** C2. A Request and a Notification with unknown methods on the code: the
    one frame written is an error Response to the Request, with code -32603;
    the Notification is only logged. *)
Theorem unknown_method_is_internal_error :
  let w := run' (init notes_skill)
             [EvLine "{'jsonrpc':'2.0','id':7,'method':'foo/bar'}";
              EvLine "{'jsonrpc':'2.0','method':'bar/baz'}"] in
  stdout w = [error_response 7 (-32603) "Unknown method: foo/bar"]
  /\ stderr w = ["Notification handler error: Unknown method: bar/baz"]
  /\ main w = AtReadline.
Proof. vm_compute. repeat split; reflexivity. Qed.

(** C3. A tool registered by the load hook on the code: the next
    [tools/list] lists [add_note] alone, and the next [tools/call] of the
    registered name fails with "Unknown tool". *)
Theorem registered_tool_is_not_visible :
  let w := run' (init kitchen_sink)
             [EvLine "{'jsonrpc':'2.0','id':1,'method':'skill/load'}";
              EvLine "{'jsonrpc':'2.0','id':2,'method':'tools/list'}";
              EvLine "{'jsonrpc':'2.0','id':3,'method':'tools/call','params':{'name':'advanced_analytics','arguments':{'protocol':'x'}}}"] in
  stdout w
  = [response 1 ok;
     response 2 (JDict [("tools", JList [add_note_advert])]);
     error_response 3 (-32603) "Unknown tool: advanced_analytics"]
  /\ stderr w = ["kitchen-sink: registered advanced_analytics tool"]
  /\ map fst (_tools w) = ["add_note"].
Proof. vm_compute. repeat split; reflexivity. Qed.

(** C8. A line that is not UTF-8 on the code: [line.decode()] raises outside
    the [try], the loop ends, and the [tools/list] Request on the next line
    gets no answer. *)
Theorem undecodable_line_ends_the_loop :
  let w := run' (init notes_skill)
             [EvRead [xff; x0a];
              EvLine "{'jsonrpc':'2.0','id':1,'method':'tools/list'}"] in
  main w = Stopped (Crashed (Exception "UnicodeDecodeError" "invalid utf-8"))
  /\ stdout w = []
  /\ stderr w = [].
Proof. vm_compute. repeat split; reflexivity. Qed.

(** Scenario C: a line of malformed JSON is logged, and the Request after it
    is answered. *)
Example scenario_C :
  let w := run' (init notes_skill)
             [EvLine "{'jsonrpc':'2.0','id':1,";
              EvLine "{'jsonrpc':'2.0','id':1,'method':'tools/list'}"] in
  stderr w = [dq "Failed to parse JSON-RPC message: {'jsonrpc':'2.0','id':1,"]
  /\ stdout w = [response 1 (JDict [("tools", JList [add_note_advert])])]
  /\ main w = AtReadline.
Proof. vm_compute. repeat split; reflexivity. Qed.

(** ** The transport loop *)

Section Loop.

Variable loads : string -> option json.
Variable repr : json -> string.

Lemma loop_body_reads line msg w :
  reads loads line msg -> loop_body loads repr line w = _handle_message repr msg w.
Proof.
  intros [Hne (text & Hd & Hs & Hj)]. unfold loop_body.
  destruct line as [|b l]; [congruence|].
  rewrite Hd, Hs, Hj. reflexivity.
Qed.

(** A blank line is skipped, a line that decodes but is no JSON is logged and
    dropped; the loop goes on. *)
Lemma blank_line_skipped line text w :
  line <> [] -> decode line = Some text -> String.eqb (strip text) "" = true ->
  loop_body loads repr line w = w.
Proof.
  intros Hne Hd Hs. unfold loop_body. destruct line; [congruence|].
  rewrite Hd, Hs. reflexivity.
Qed.

Lemma malformed_line_logged line text w :
  line <> [] -> decode line = Some text -> String.eqb (strip text) "" = false ->
  loads (strip text) = None ->
  loop_body loads repr line w
  = log ("Failed to parse JSON-RPC message: " ++ strip text) w.
Proof.
  intros Hne Hd Hs Hj. unfold loop_body. destruct line; [congruence|].
  rewrite Hd, Hs, Hj. reflexivity.
Qed.

(** A line that does not decode ends the loop, whatever the state. *)
Lemma undecodable_line_crashes line w :
  line <> [] -> decode line = None ->
  main (loop_body loads repr line w)
  = Stopped (Crashed (Exception "UnicodeDecodeError" "invalid utf-8")).
Proof.
  intros Hne Hd. unfold loop_body. destruct line; [congruence|].
  rewrite Hd. reflexivity.
Qed.

(** [ctx.tools.register] and [ctx.tools.unregister] leave the server as it
    is. *)
Lemma exec_register d ex k w : exec (ToolsRegister d ex k) w = exec k w.
Proof. reflexivity. Qed.

Lemma exec_unregister n k w : exec (ToolsUnregister n k) w = exec k w.
Proof. reflexivity. Qed.

(** Every other method ends in the catch-all of [_handle_message]: error
    -32603 for a Request, a log line for a Notification. *)
Lemma unknown_method_dispatch method params w :
  ~ In method implemented_methods ->
  _dispatch repr (JStr method) params w
  = (w, Immediate (inr (Exception "ValueError" ("Unknown method: " ++ method)))).
Proof.
  intros Hn. unfold _dispatch, str_eq.
  repeat match goal with
         | |- context [String.eqb method ?lit] =>
             let E := fresh "E" in
             destruct (String.eqb_spec method lit) as [E|E];
             [exfalso; apply Hn; rewrite E; cbn; tauto|]
         end.
  reflexivity.
Qed.

Lemma unknown_method_handled method m w :
  is_response m = false -> dict_get m "method" = Some (JStr method) ->
  ~ In method implemented_methods ->
  _handle_message repr (JDict m) w
  = respond (dict_get_or m "id" JNull)
      (inr (Exception "ValueError" ("Unknown method: " ++ method))) w.
Proof.
  intros Hr Hm Hn. unfold is_response in Hr. unfold _handle_message. rewrite Hr.
  assert (Hm' : dict_get_or m "method" (JStr "") = JStr method)
    by (unfold dict_get_or; rewrite Hm; reflexivity).
  rewrite Hm', (unknown_method_dispatch method _ w Hn). reflexivity.
Qed.



Lemma run_app w evs1 evs2 :
  run loads repr w (evs1 ++ evs2) = run loads repr (run loads repr w evs1) evs2.
Proof. unfold run. apply fold_left_app. Qed.

End Loop.

(** ** Shutdown *)

Section Shutdown.

Variable loads : string -> option json.
Variable repr : json -> string.



End Shutdown.



(** ** End of input *)

Section EndOfInput.

Variable loads : string -> option json.
Variable repr : json -> string.

(** C5, as the code has it.  When [readline] returns [b""] the loop ends and
    nothing is written or logged.  No outstanding call is rejected: every
    entry stays in [_pending], the task awaiting it is cancelled with the
    event loop, and cancellations are the only settlements made. *)
Theorem eof_cancels_pending_calls w :
  main w = AtReadline ->
  let w' := step loads repr w (EvRead []) in
  main w' = Stopped Eof
  /\ stdout w' = stdout w
  /\ stderr w' = stderr w
  /\ dom (_pending w') = dom (_pending w)
  /\ (forall msg_id fut, _pending w !! msg_id = Some fut -> fut_done fut = false ->
        In (msg_id, inr cancelled_error) (settled w'))
  /\ (forall msg_id r, In (msg_id, r) (settled w') ->
        In (msg_id, r) (settled w) \/ r = inr cancelled_error).
Proof.
  intros Hmain w'.
  assert (Hw' : w' = stop Eof w).
  { subst w'. unfold step. rewrite Hmain. reflexivity. }
  rewrite Hw'. repeat split.
  - cbn. apply dom_fmap_L.
  - intros msg_id fut Hl Hd. cbn. apply in_or_app. right.
    apply in_map_iff. exists (msg_id, fut). split; [reflexivity|].
    apply list_elem_of_In, elem_of_map_to_list, map_lookup_filter_Some.
    split; assumption.
  - intros msg_id r Hin. cbn in Hin. apply in_app_or in Hin.
    destruct Hin as [Hin|Hin]; [left; exact Hin|right].
    apply in_map_iff in Hin. destruct Hin as (kv & Heq & _).
    congruence.
Qed.

End EndOfInput.

(** C5 on a run: the unload hook detaches a [state/set] call, its Request is
    written, and stdin closes.  The call is not rejected with "transport
    closed": its only settlement is the cancellation, and its entry is still
    in [_pending]. *)
Lemma eof_rejects_nothing :
  let w := run' (init kitchen_sink)
             [EvLine "{'jsonrpc':'2.0','id':1,'method':'skill/unload'}"; EvEof] in
  stdout w
  = [response 1 ok;
     request_frame 1 "state/set"
       (Some (JDict [("partial", JDict [("unloaded_at", JStr "now")])]))]
  /\ settled w = [(1, inr cancelled_error)]
  /\ fut_method <$> _pending w !! 1 = Some "state/set"
  /\ ~ (exists e, exn_str e = "transport closed" /\ In (1, inr e) (settled w)).
Proof.
  vm_compute. repeat split; try reflexivity.
  intros (e & He & [Hin|[]]). inversion Hin; subst. discriminate He.
Qed.

Lemma eof_cancels_pending_calls_witness :
  let w := run' (init kitchen_sink)
             [EvLine "{'jsonrpc':'2.0','id':1,'method':'skill/unload'}"] in
  main w = AtReadline /\ main (step' w EvEof) = Stopped Eof.
Proof.
  intros w. assert (H : main w = AtReadline) by (vm_compute; reflexivity).
  split; [exact H|].
  exact (proj1 (eof_cancels_pending_calls PyLib.loads PyLib.repr w H)).
Defined.

(** ** Settling a pending call *)

Section Settlement.

Variable repr : json -> string.

Lemma filter_live_cancel (p : gmap Z future) : filter live (cancel <$> p) = ∅.
Proof.
  apply map_empty. intros i. apply map_lookup_filter_None. right.
  intros fut Hl Hlive. rewrite lookup_fmap in Hl.
  destruct (p !! i); simplify_eq/=. discriminate Hlive.
Qed.

Lemma cancel_cancel (p : gmap Z future) : cancel <$> (cancel <$> p) = cancel <$> p.
Proof. rewrite <- map_fmap_compose. apply map_fmap_ext. intros; reflexivity. Qed.

Lemma stop_stop r w : stop r (stop r w) = stop r w.
Proof.
  unfold stop. cbn. rewrite filter_live_cancel, cancel_cancel, map_to_list_empty.
  cbn. rewrite app_nil_r. reflexivity.
Qed.

Lemma size_pending_stop r w : size (_pending (stop r w)) = size (_pending w).
Proof. unfold stop. cbn. apply map_size_fmap. Qed.

(** C7. Two Responses for the same id: the second changes nothing, whatever
    it carries and whether the first resolved the call, rejected it, or found
    no call at all. *)
Theorem second_settlement_is_noop w m1 m2 :
  is_response m1 = true -> is_response m2 = true ->
  response_key m1 = response_key m2 ->
  _handle_message repr (JDict m2) (_handle_message repr (JDict m1) w)
  = _handle_message repr (JDict m1) w.
Proof.
  unfold is_response, response_key. intros H1 H2 Hk.
  remember (_handle_message repr (JDict m1) w) as w1 eqn:Hw1.
  unfold _handle_message in Hw1. rewrite H1 in Hw1.
  unfold _handle_message. rewrite H2, <- Hk.
  destruct (hash_key (dict_get_or m1 "id" JNull)) as [msg_id| |ty].
  - assert (Hgone : _pending w1 !! msg_id = None).
    { destruct (_pending w !! msg_id) as [fut|] eqn:Hl; [|subst w1; exact Hl].
      destruct (fut_done fut); cbn [negb] in Hw1;
        [subst w1; cbn; apply lookup_delete_eq|].
      destruct (dict_has m1 "error");
        [|subst w1; cbn; apply lookup_delete_eq].
      destruct (dict_get_or m1 "error" JNull); subst w1; cbn;
        rewrite ?lookup_fmap, lookup_delete_eq; reflexivity. }
    rewrite Hgone. reflexivity.
  - reflexivity.
  - subst w1. destruct (Nat.eqb (size (_pending w)) 0) eqn:Hs.
    + rewrite Hs. reflexivity.
    + rewrite size_pending_stop, Hs. apply stop_stop.
Qed.

End Settlement.

Lemma second_settlement_is_noop_witness :
  let w := run' (init kitchen_sink)
             [EvLine "{'jsonrpc':'2.0','id':1,'method':'skill/unload'}"] in
  let m1 := [("jsonrpc", JStr "2.0"); ("id", JInt 1); ("result", JNull)] in
  let m2 := [("jsonrpc", JStr "2.0"); ("id", JInt 1);
             ("error", JDict [("code", JInt 1); ("message", JStr "late")])] in
  settled (_handle_message PyLib.repr (JDict m2) (_handle_message PyLib.repr (JDict m1) w))
  = [(1, inl JNull)].
Proof.
  intros w m1 m2.
  rewrite (second_settlement_is_noop PyLib.repr w m1 m2);
    [vm_compute; reflexivity | reflexivity | reflexivity | reflexivity].
Defined.

(** ** The message hooks *)

Section Transform.

Variable repr : json -> string.

(** C9. The Response to [skill/beforeMessage] (resp. [skill/afterResponse])
    carries the field [message] (resp. [response]): [null] when no hook is
    set; otherwise the handler runs with [transform] as its wrapper, so that
    whenever the hook returns, at once or after suspending, the field is the
    returned string itself, the empty string included, and [null] for any
    other value. *)
Theorem transform_reply_is_explicit which w m msg_id :
  dict_has m "result" = false -> dict_has m "error" = false ->
  dict_get m "method" = Some (JStr (transform_method which)) ->
  dict_get m "id" = Some msg_id -> msg_id <> JNull ->
  let arg := dict_get_or (match dict_get_or m "params" JNull with JDict d => d | _ => [] end)
               (transform_field which) (JStr "") in
  let reply := fun v : json =>
    JDict [("jsonrpc", JStr "2.0"); ("id", msg_id);
           ("result", JDict [(transform_field which, v)])] in
  let field := fun v : pyval => match v with VStr s => JStr s | _ => JNull end in
  ((_hooks w = None \/ exists hs, _hooks w = Some hs /\ transform_slot which hs = None) ->
     _handle_message repr (JDict m) w = _write_message (reply JNull) w)
  /\ (forall hs h, _hooks w = Some hs -> transform_slot which hs = Some h ->
        _handle_message repr (JDict m) w
        = run_handler msg_id (transform (transform_field which)) (h arg) w
        /\ forall w' v, exec (h arg) w = (w', Done (inl v)) ->
             _handle_message repr (JDict m) w
             = _write_message (reply (field v)) (with_main AtReadline w'))
  /\ (forall v w0, respond msg_id (transform (transform_field which) v) w0
                   = _write_message (reply (field v)) w0)
  /\ reply (field (VStr "")) <> reply (field VNone).
Proof.
  intros Hres Herr Hmeth Hid Hnn arg reply field.
  assert (Hresp : forall v w0, respond msg_id (transform (transform_field which) v) w0
                               = _write_message (reply (field v)) w0).
  { intros v w0. unfold respond, transform.
    destruct msg_id; try reflexivity; congruence. }
  assert (Hd : _handle_message repr (JDict m) w
               = match hook1 (transform_slot which) arg
                         (transform (transform_field which))
                         (JDict [(transform_field which, JNull)]) w with
                 | Immediate r => respond msg_id r w
                 | Invoke p wrap => run_handler msg_id wrap p w
                 end).
  { assert (Hm' : dict_get_or m "method" (JStr "") = JStr (transform_method which))
      by (unfold dict_get_or; rewrite Hmeth; reflexivity).
    assert (Hi' : dict_get_or m "id" JNull = msg_id)
      by (unfold dict_get_or; rewrite Hid; reflexivity).
    unfold _handle_message. rewrite Hres, Herr, Hm', Hi'. cbn [orb].
    subst arg. destruct which; reflexivity. }
  split; [|split; [|split]].
  - intros Hno. rewrite Hd. unfold hook1.
    destruct Hno as [Hn|(hs & Hs & Hn)].
    + rewrite Hn. apply (Hresp VNone).
    + rewrite Hs, Hn. apply (Hresp VNone).
  - intros hs h Hs Hh.
    assert (Hrun : _handle_message repr (JDict m) w
                   = run_handler msg_id (transform (transform_field which)) (h arg) w)
      by (rewrite Hd; unfold hook1; rewrite Hs, Hh; reflexivity).
    split; [exact Hrun|].
    intros w' v Hex. rewrite Hrun. unfold run_handler. rewrite Hex. apply Hresp.
  - exact Hresp.
  - subst reply field. cbn. destruct which; discriminate.
Qed.

End Transform.

Lemma transform_reply_is_explicit_witness :
  let m := [("jsonrpc", JStr "2.0"); ("id", JInt 5); ("method", JStr "skill/beforeMessage");
            ("params", JDict [("message", JStr "hello")])] in
  stdout (_handle_message PyLib.repr (JDict m) (init kitchen_sink))
  = [response 5 (JDict [("message", JStr "")])].
Proof.
  intros m.
  assert (Hid : JInt 5 <> JNull) by discriminate.
  destruct (transform_reply_is_explicit PyLib.repr BeforeMessage (init kitchen_sink) m (JInt 5)
              eq_refl eq_refl eq_refl eq_refl Hid) as (_ & H & _).
  destruct (H kitchen_hooks (fun _ => Return (VStr "")) eq_refl eq_refl) as [_ H'].
  rewrite (H' (init kitchen_sink) (VStr "") eq_refl). reflexivity.
Defined.

(** ** Detached reverse calls *)

Section FireAndForget.

Variable loads : string -> option json.
Variable repr : json -> string.


End FireAndForget.


(** ** The time-out of a reverse call *)

Ltac splits := repeat match goal with |- _ /\ _ => split end.

Ltac fields :=
  cbn [_tools _hooks _pending _next_id _manifest _data_dir stdout stderr clock main
       ready inbuf exit_at settled with_pending with_next_id with_manifest
       with_data_dir with_stdout with_stderr with_clock with_main with_ready
       with_inbuf with_exit_at with_settled settle stop log _write_message
       _send_response _send_error].

Ltac fields_in H :=
  cbn [_tools _hooks _pending _next_id _manifest _data_dir stdout stderr clock main
       ready inbuf exit_at settled with_pending with_next_id with_manifest
       with_data_dir with_stdout with_stderr with_clock with_main with_ready
       with_inbuf with_exit_at with_settled settle stop log _write_message
       _send_response _send_error] in H.


Lemma frame_refl w : frame w w.
Proof. repeat split; auto. lia. Qed.

Lemma frame_trans w1 w2 w3 : frame w1 w2 -> frame w2 w3 -> frame w1 w3.
Proof.
  intros (H1 & H2 & H3) (H4 & H5 & H6). repeat split.
  - lia.
  - auto.
  - intros i Hi Hn. apply H6; [lia|]. apply H3; assumption.
Qed.

(** [msg] is a Response whose id is the key [i] of [_pending]. *)

Section Timeout.
Variable loads : string -> option json.
Variable repr : json -> string.

(** exec *)
Lemma exec_spec p : forall w w' o, exec p w = (w', o) ->
  clock w' = clock w /\ settled w' = settled w /\ main w' = main w
  /\ inbuf w' = inbuf w /\ exit_at w' = exit_at w
  /\ match o with
     | Done _ => _pending w' = _pending w /\ _next_id w' = _next_id w
     | Blocked c =>
         c = _next_id w /\ _next_id w' = c + 1
         /\ exists m k, _pending w' =
              <[c := {| fut_method := m;
                        fut_deadline := (clock w + REVERSE_RPC_TIMEOUT)%N;
                        fut_waiter := MainTask k; fut_done := false |}]> (_pending w)
     end.
Proof.
  induction p as [v|e|m ps k IH|m ps k IH|msg k IH|d ex IHex k IH|n k IH|k IH];
    intros w w' o Hex; cbn in Hex.
  - inversion Hex; subst. repeat split; reflexivity.
  - inversion Hex; subst. repeat split; reflexivity.
  - inversion Hex; subst. cbn. repeat split; try reflexivity. eauto.
  - apply IH in Hex. exact Hex.
  - apply IH in Hex. exact Hex.
  - apply IH in Hex. exact Hex.
  - apply IH in Hex. exact Hex.
  - apply IH in Hex. exact Hex.
Qed.

Lemma respond_fields mid r w :
  _pending (respond mid r w) = _pending w /\ _next_id (respond mid r w) = _next_id w
  /\ clock (respond mid r w) = clock w /\ settled (respond mid r w) = settled w
  /\ main (respond mid r w) = main w /\ inbuf (respond mid r w) = inbuf w
  /\ exit_at (respond mid r w) = exit_at w.
Proof.
  unfold respond. destruct r; destruct (is_not_None mid); repeat split; reflexivity.
Qed.

(** The two ways a handler leaves the main task. *)
Lemma run_handler_spec mid wrap p w :
  let w' := run_handler mid wrap p w in
  clock w' = clock w /\ settled w' = settled w /\ inbuf w' = inbuf w
  /\ exit_at w' = exit_at w
  /\ ((main w' = AtReadline /\ _pending w' = _pending w /\ _next_id w' = _next_id w)
      \/ (exists m k, main w' = InHandler mid wrap (_next_id w)
                      /\ _next_id w' = _next_id w + 1
                      /\ _pending w' =
                           <[_next_id w := {| fut_method := m;
                                fut_deadline := (clock w + REVERSE_RPC_TIMEOUT)%N;
                                fut_waiter := MainTask k; fut_done := false |}]> (_pending w))).
Proof.
  unfold run_handler. destruct (exec p w) as [w1 o] eqn:Hex.
  apply exec_spec in Hex. destruct Hex as (Hc & Hs & Hm & Hi & He & Ho).
  destruct o as [[v|e]|c].
  - destruct Ho as [Hp Hn].
    destruct (respond_fields mid (wrap v) (with_main AtReadline w1))
      as (R1 & R2 & R3 & R4 & R5 & R6 & R7).
    cbn zeta. rewrite R1, R2, R3, R4, R5, R6, R7. cbn.
    repeat split; try assumption. left. repeat split; assumption.
  - destruct Ho as [Hp Hn].
    destruct (respond_fields mid (inr e) (with_main AtReadline w1))
      as (R1 & R2 & R3 & R4 & R5 & R6 & R7).
    cbn zeta. rewrite R1, R2, R3, R4, R5, R6, R7. cbn.
    repeat split; try assumption. left. repeat split; assumption.
  - destruct Ho as (-> & Hn & m & k & Hp). cbn.
    repeat split; try assumption. right. exists m, k. repeat split; assumption.
Qed.

Lemma reg_insert w w' m wt :
  reg w -> _next_id w' = _next_id w + 1 -> clock w' = clock w ->
  _pending w' = <[_next_id w := {| fut_method := m;
                    fut_deadline := (clock w + REVERSE_RPC_TIMEOUT)%N;
                    fut_waiter := wt; fut_done := false |}]> (_pending w) ->
  reg w'.
Proof.
  intros Hr Hn Hc Hp i fut Hl. rewrite Hp in Hl. rewrite Hn, Hc.
  destruct (decide (_next_id w = i)) as [<-|Hne].
  - rewrite lookup_insert_eq in Hl. inversion Hl; subst; cbn.
    unfold REVERSE_RPC_TIMEOUT. repeat split; lia.
  - rewrite lookup_insert_ne in Hl by assumption.
    destruct (Hr i fut Hl) as (H1 & H2 & H3). repeat split; try assumption; lia.
Qed.

Lemma frame_insert w w' fut :
  _next_id w <= _next_id w' -> settled w' = settled w ->
  _pending w' = <[_next_id w := fut]> (_pending w) -> frame w w'.
Proof.
  intros Hn Hs Hp. repeat split; [assumption| |].
  - intros x. rewrite Hs. auto.
  - intros i Hi Hnone. rewrite Hp, lookup_insert_ne by lia. exact Hnone.
Qed.

Lemma frame_same w w' :
  _next_id w' = _next_id w -> settled w' = settled w -> _pending w' = _pending w ->
  frame w w'.
Proof.
  intros Hn Hs Hp. repeat split.
  - lia.
  - rewrite Hs. auto.
  - rewrite Hp. auto.
Qed.

Lemma run_handler_inv mid wrap p w :
  reg w -> idle w ->
  let w' := run_handler mid wrap p w in
  alive w' /\ reg w' /\ main_ok w' /\ frame w w'
  /\ (forall i fut, _pending w !! i = Some fut -> _pending w' !! i = Some fut)
  /\ clock w' = clock w /\ inbuf w' = inbuf w.
Proof.
  intros Hr Hi w'.
  destruct (run_handler_spec mid wrap p w) as (Hc & Hs & Hb & He & Hcase).
  fold w' in Hc, Hs, Hb, He, Hcase.
  destruct Hcase as [(Hm & Hp & Hn)|(m & k & Hm & Hn & Hp)].
  - splits; try assumption.
    + unfold alive. rewrite Hm. exact I.
    + intros i fut Hl. rewrite Hp in Hl. rewrite Hn, Hc. apply Hr. exact Hl.
    + intros i fut k Hl Hw. rewrite Hp in Hl. rewrite (Hi i fut Hl) in Hw. discriminate.
    + apply frame_same; assumption.
    + intros i fut Hl. rewrite Hp. exact Hl.
  - splits; try assumption.
    + unfold alive. rewrite Hm. exact I.
    + eapply reg_insert; eassumption.
    + intros i fut k' Hl Hw. rewrite Hp in Hl.
      destruct (decide (_next_id w = i)) as [<-|Hne].
      * eauto.
      * rewrite lookup_insert_ne in Hl by assumption.
        rewrite (Hi i fut Hl) in Hw. discriminate.
    + eapply frame_insert; [lia|eassumption..].
    + intros i fut Hl. rewrite Hp.
      destruct (Hr i fut Hl) as (Hlt & _).
      rewrite lookup_insert_ne by lia. exact Hl.
Qed.


Lemma dispatch_fields method params w w1 act :
  _dispatch repr method params w = (w1, act) ->
  _pending w1 = _pending w /\ _next_id w1 = _next_id w /\ clock w1 = clock w
  /\ settled w1 = settled w /\ main w1 = main w /\ inbuf w1 = inbuf w.
Proof.
  unfold _dispatch. intros H.
  repeat match type of H with
         | context [if ?c then _ else _] => destruct c
         | context [match ?x with _ => _ end] => destruct x
         end;
    inversion H; subst; splits; reflexivity.
Qed.

Lemma frame_stop r w : frame w (stop r w).
Proof.
  unfold frame. splits.
  - reflexivity.
  - intros x Hx. cbn. apply in_or_app. left. exact Hx.
  - intros i _ Hn. cbn. rewrite lookup_fmap, Hn. reflexivity.
Qed.

Lemma not_alive_stop r w : ~ alive (stop r w).
Proof. unfold alive. cbn. auto. Qed.

Lemma handle_message_inv msg w :
  reg w -> idle w ->
  let w' := _handle_message repr msg w in
  frame w w'
  /\ (alive w' ->
      reg w' /\ main_ok w' /\ clock w' = clock w /\ inbuf w' = inbuf w
      /\ forall i fut, _pending w !! i = Some fut -> ~ is_answer msg i ->
           _pending w' !! i = Some fut).
Proof.
  intros Hr Hi w'. subst w'.
  assert (Hstop : forall r w0, frame w w0 ->
            frame w (stop r w0) /\
            (alive (stop r w0) ->
               reg (stop r w0) /\ main_ok (stop r w0) /\ clock (stop r w0) = clock w
               /\ inbuf (stop r w0) = inbuf w
               /\ forall i fut, _pending w !! i = Some fut -> ~ is_answer msg i ->
                    _pending (stop r w0) !! i = Some fut)).
  { intros r w0 Hf. split.
    - eapply frame_trans; [exact Hf|apply frame_stop].
    - intros Ha. destruct (not_alive_stop _ _ Ha). }
  assert (Hsame : frame w w /\
            (alive w -> reg w /\ main_ok w /\ clock w = clock w /\ inbuf w = inbuf w
               /\ forall i fut, _pending w !! i = Some fut -> ~ is_answer msg i ->
                    _pending w !! i = Some fut)).
  { split; [apply frame_refl|]. intros _. splits; auto.
    intros i fut k Hl Hw. rewrite (Hi i fut Hl) in Hw. discriminate. }
  destruct msg as [|b|z|f|s|l|m]; try (apply Hstop, frame_refl).
  unfold _handle_message.
  destruct (dict_has m "result" || dict_has m "error") eqn:Hresp.
  - destruct (hash_key (dict_get_or m "id" JNull)) as [i| |ty] eqn:Hk.
    + destruct (_pending w !! i) as [fut|] eqn:Hl; [|exact Hsame].
      set (w1 := with_pending (delete i (_pending w)) w).
      assert (Hf1 : frame w w1).
      { unfold frame. subst w1. splits; fields; [lia|auto|]. intros j _ Hn.
        destruct (decide (i = j)) as [->|Hne];
          [apply lookup_delete_eq | rewrite lookup_delete_ne by assumption; exact Hn]. }
      assert (Hgood : forall r,
                frame w (settle i r w1) /\
                (alive (settle i r w1) ->
                 reg (settle i r w1) /\ main_ok (settle i r w1)
                 /\ clock (settle i r w1) = clock w /\ inbuf (settle i r w1) = inbuf w
                 /\ forall j fut', _pending w !! j = Some fut' -> ~ is_answer (JDict m) j ->
                      _pending (settle i r w1) !! j = Some fut')).
      { intros r. split.
        - destruct Hf1 as (F1 & F2 & F3). unfold frame. splits; fields; [exact F1| |exact F3].
          intros x Hx. apply in_or_app. left. exact Hx.
        - intros _. splits; try reflexivity.
          + intros j fut' Hj. cbn in Hj.
            destruct (decide (i = j)) as [->|Hne];
              [rewrite lookup_delete_eq in Hj; discriminate|].
            rewrite lookup_delete_ne in Hj by assumption. exact (Hr j fut' Hj).
          + intros j fut' k Hj Hw. cbn in Hj.
            destruct (decide (i = j)) as [->|Hne];
              [rewrite lookup_delete_eq in Hj; discriminate|].
            rewrite lookup_delete_ne in Hj by assumption.
            rewrite (Hi j fut' Hj) in Hw. discriminate.
          + intros j fut' Hj Hna. cbn.
            destruct (decide (i = j)) as [->|Hne].
            * exfalso. apply Hna. exists m. splits; [reflexivity|exact Hresp|exact Hk].
            * rewrite lookup_delete_ne by assumption. exact Hj. }
      destruct (Hr i fut Hl) as (_ & _ & Hnd). rewrite Hnd. cbn [negb].
      destruct (dict_has m "error").
      * destruct (dict_get_or m "error" JNull); try (apply Hstop; exact Hf1).
        apply Hgood.
      * apply Hgood.
    + exact Hsame.
    + destruct (Nat.eqb (size (_pending w)) 0); [exact Hsame|apply Hstop, frame_refl].
  - destruct (_dispatch repr (dict_get_or m "method" (JStr "")) (dict_get_or m "params" JNull) w)
      as [w1 act] eqn:Hd.
    apply dispatch_fields in Hd. destruct Hd as (Dp & Dn & Dc & Ds & Dm & Db).
    assert (Hr1 : reg w1).
    { intros i fut Hl. rewrite Dp in Hl. rewrite Dn, Dc. exact (Hr i fut Hl). }
    assert (Hi1 : idle w1).
    { intros i fut Hl. rewrite Dp in Hl. exact (Hi i fut Hl). }
    assert (Hf1 : frame w w1) by (apply frame_same; assumption).
    destruct act as [r|p wrap].
    + destruct (respond_fields (dict_get_or m "id" JNull) r w1)
        as (R1 & R2 & R3 & R4 & R5 & R6 & R7).
      split.
      * apply frame_same; congruence.
      * intros _. splits; try congruence.
        -- intros i fut Hl. rewrite R1, Dp in Hl. rewrite R2, R3, Dn, Dc. exact (Hr i fut Hl).
        -- intros i fut k Hl Hw. rewrite R1, Dp in Hl.
           rewrite (Hi i fut Hl) in Hw. discriminate.
    + destruct (run_handler_inv (dict_get_or m "id" JNull) wrap p w1 Hr1 Hi1)
        as (Ha & Hr' & Hm' & Hf' & Hk' & Hc' & Hb').
      split.
      * eapply frame_trans; eassumption.
      * intros _. splits; try assumption; try congruence.
        intros i fut Hl _. apply Hk'. rewrite Dp. exact Hl.
Qed.


Lemma idle_of_main_ok w : main_ok w -> main w = AtReadline -> idle w.
Proof.
  intros Hm Ha i fut Hl. destruct (fut_waiter fut) as [k|] eqn:Hw; [|reflexivity].
  destruct (Hm i fut k Hl Hw) as (mid & wrap & Hmain). congruence.
Qed.

Lemma main_ok_of_idle w : idle w -> main_ok w.
Proof. intros Hi i fut k Hl Hw. rewrite (Hi i fut Hl) in Hw. discriminate. Qed.

Lemma loop_body_inv line w :
  reg w -> idle w ->
  let w' := loop_body loads repr line w in
  frame w w'
  /\ (alive w' ->
      reg w' /\ main_ok w' /\ clock w' = clock w /\ inbuf w' = inbuf w
      /\ forall i fut, _pending w !! i = Some fut -> ~ answers loads i line ->
           _pending w' !! i = Some fut).
Proof.
  intros Hr Hi w'. subst w'. unfold loop_body.
  destruct line as [|b l] eqn:Hline.
  { split; [apply frame_stop|]. intros Ha. destruct (not_alive_stop _ _ Ha). }
  rewrite <- Hline.
  destruct (decode line) as [text|] eqn:Hd.
  2:{ split; [apply frame_stop|]. intros Ha. destruct (not_alive_stop _ _ Ha). }
  destruct (String.eqb (strip text) "") eqn:Hs.
  { split; [apply frame_refl|]. intros _. splits; auto. apply main_ok_of_idle, Hi. }
  destruct (loads (strip text)) as [msg|] eqn:Hj.
  - destruct (handle_message_inv msg w Hr Hi) as (Hf & Hrest).
    split; [exact Hf|]. intros Ha.
    destruct (Hrest Ha) as (H1 & H2 & H3 & H4 & H5). splits; try assumption.
    intros i fut Hl Hna. apply H5; [exact Hl|].
    intros Hans. apply Hna. exists msg. split; [|exact Hans].
    split; [rewrite Hline; discriminate|]. exists text. splits; assumption.
  - split; [apply frame_same; reflexivity|]. intros _. splits; try reflexivity.
    + exact Hr.
    + apply main_ok_of_idle, Hi.
    + auto.
Qed.

Lemma drain_inv buf : forall w,
  reg w -> idle w ->
  let w' := drain loads repr buf w in
  frame w w'
  /\ (alive w' ->
      reg w' /\ main_ok w' /\ clock w' = clock w
      /\ (forall line, In line (inbuf w') -> In line buf)
      /\ forall i fut, _pending w !! i = Some fut ->
           (forall line, In line buf -> ~ answers loads i line) ->
           _pending w' !! i = Some fut).
Proof.
  induction buf as [|line rest IH]; intros w Hr Hi; cbn [drain].
  - split; [apply frame_same; reflexivity|]. intros _. splits; try reflexivity.
    + exact Hr.
    + apply main_ok_of_idle, Hi.
    + intros line [].
    + auto.
  - set (w0 := with_inbuf rest w).
    assert (Hr0 : reg w0) by exact Hr.
    assert (Hi0 : idle w0) by exact Hi.
    destruct (loop_body_inv line w0 Hr0 Hi0) as (Hf1 & Hrest1).
    cbn zeta in Hf1, Hrest1. cbn zeta.
    set (w1 := loop_body loads repr line w0) in *.
    assert (Hf0 : frame w w0) by (apply frame_same; reflexivity).
    destruct (main w1) as [|mid wrap c|r] eqn:Hm1.
    + assert (Ha1 : alive w1) by (unfold alive; rewrite Hm1; exact I).
      destruct (Hrest1 Ha1) as (R1 & M1 & C1 & B1 & K1).
      destruct (IH w1 R1 (idle_of_main_ok w1 M1 Hm1)) as (Hf2 & Hrest2).
      cbn zeta in Hf2, Hrest2.
      split; [exact (frame_trans _ _ _ Hf0 (frame_trans _ _ _ Hf1 Hf2))|].
      intros Ha. destruct (Hrest2 Ha) as (R2 & M2 & C2 & B2 & K2).
      splits; try assumption.
      * rewrite C2, C1. reflexivity.
      * intros l Hl. right. apply B2, Hl.
      * intros i fut Hl Hq. apply K2.
        -- apply K1; [exact Hl|]. apply Hq. left. reflexivity.
        -- intros l Hin. apply Hq. right. exact Hin.
    + split; [exact (frame_trans _ _ _ Hf0 Hf1)|].
      intros Ha. destruct (Hrest1 Ha) as (R1 & M1 & C1 & B1 & K1).
      splits; try assumption.
      * intros l Hl. rewrite B1 in Hl. right. exact Hl.
      * intros i fut Hl Hq. apply K1; [exact Hl|]. apply Hq. left. reflexivity.
    + split; [exact (frame_trans _ _ _ Hf0 Hf1)|].
      intros Ha. unfold alive in Ha. rewrite Hm1 in Ha. destruct Ha.
Qed.


(** Starting the detached tasks. *)
Lemma start_calls_inv calls : forall w,
  reg w -> main_ok w ->
  let w' := fold_left (fun w' call => _reverse_rpc (fst call) (snd call) Detached w')
                      calls w in
  reg w' /\ main_ok w' /\ frame w w'
  /\ (forall i fut, _pending w !! i = Some fut -> _pending w' !! i = Some fut)
  /\ clock w' = clock w /\ inbuf w' = inbuf w /\ main w' = main w.
Proof.
  induction calls as [|[m ps] calls IH]; intros w Hr Hm; cbn [fold_left fst snd].
  - splits; auto. apply frame_refl.
  - set (w1 := _reverse_rpc m ps Detached w).
    assert (Hr1 : reg w1).
    { eapply (reg_insert w w1 m Detached); [exact Hr | reflexivity .. ]. }
    assert (Hm1 : main_ok w1).
    { intros i fut k Hl Hw. subst w1. unfold _reverse_rpc in Hl. fields_in Hl.
      destruct (decide (_next_id w = i)) as [<-|Hne].
      - rewrite lookup_insert_eq in Hl. inversion Hl; subst. discriminate Hw.
      - rewrite lookup_insert_ne in Hl by assumption. exact (Hm i fut k Hl Hw). }
    assert (Hf1 : frame w w1).
    { eapply frame_insert; [ | reflexivity .. ]. subst w1. unfold _reverse_rpc. fields. lia. }
    destruct (IH w1 Hr1 Hm1) as (R & M & F & K & C & B & Mn).
    splits; try assumption.
    + exact (frame_trans _ _ _ Hf1 F).
    + intros i fut Hl. apply K. subst w1. unfold _reverse_rpc. fields.
      destruct (Hr i fut Hl) as (Hlt & _). rewrite lookup_insert_ne by lia. exact Hl.
Qed.

Lemma start_ready_inv w :
  reg w -> main_ok w ->
  let w' := start_ready w in
  reg w' /\ main_ok w' /\ frame w w'
  /\ (forall i fut, _pending w !! i = Some fut -> _pending w' !! i = Some fut)
  /\ clock w' = clock w /\ inbuf w' = inbuf w /\ main w' = main w.
Proof.
  intros Hr Hm.
  destruct (start_calls_inv (ready w) (with_ready [] w) Hr Hm)
    as (R & M & F & K & C & B & Mn).
  unfold start_ready.
  destruct (main w) eqn:E; cbv zeta; rewrite <- ?E;
    first [ splits; [exact R|exact M|exact F|exact K|exact C|exact B|exact Mn]
          | splits; [exact Hr|exact Hm|apply frame_refl|auto|reflexivity..] ].
Qed.


(** Timers. *)
Lemma expire_detached_lookup w i fut :
  _pending (expire_detached w) !! i = Some fut
  <-> _pending w !! i = Some fut /\ ~ timed_out (clock w) (i, fut).
Proof. unfold expire_detached. fields. apply map_lookup_filter_Some. Qed.

Lemma expire_detached_settled w i fut :
  _pending w !! i = Some fut -> timed_out (clock w) (i, fut) ->
  In (i, inr (timeout_error (fut_method fut))) (settled (expire_detached w)).
Proof.
  intros Hl Ht. unfold expire_detached. fields. apply in_or_app. right.
  apply in_map_iff. exists (i, fut). split; [reflexivity|].
  apply list_elem_of_In, elem_of_map_to_list, map_lookup_filter_Some. split; assumption.
Qed.

Lemma reg_of_due w :
  reg_due w ->
  (forall i fut k, _pending w !! i = Some fut -> fut_waiter fut = MainTask k ->
     (clock w < fut_deadline fut)%N) ->
  reg w.
Proof.
  intros Hd Hk i fut Hl. destruct (Hd i fut Hl) as (H1 & H2 & H3 & H4).
  splits; try assumption.
  destruct (fut_waiter fut) as [k|] eqn:Hw; [exact (Hk i fut k Hl Hw)|apply H4; reflexivity].
Qed.

Lemma expire_main_inv w :
  reg_due w -> main_ok w ->
  let w' := expire_main loads repr w in
  frame w w'
  /\ (alive w' ->
      reg w' /\ main_ok w' /\ clock w' = clock w
      /\ (forall line, In line (inbuf w') -> In line (inbuf w))
      /\ forall i fut, _pending w !! i = Some fut ->
           (forall line, In line (inbuf w) -> ~ answers loads i line) ->
           _pending w' !! i = Some fut
           \/ (_pending w' !! i = None
               /\ In (i, inr (timeout_error (fut_method fut))) (settled w'))).
Proof.
  intros Hd Hm.
  assert (Hsame : (forall i fut k, _pending w !! i = Some fut -> fut_waiter fut = MainTask k ->
                     (clock w < fut_deadline fut)%N) ->
            frame w w
            /\ (alive w ->
                reg w /\ main_ok w /\ clock w = clock w
                /\ (forall line, In line (inbuf w) -> In line (inbuf w))
                /\ forall i fut, _pending w !! i = Some fut ->
                     (forall line, In line (inbuf w) -> ~ answers loads i line) ->
                     _pending w !! i = Some fut
                     \/ (_pending w !! i = None
                         /\ In (i, inr (timeout_error (fut_method fut))) (settled w)))).
  { intros Hk. split; [apply frame_refl|]. intros _. splits; auto.
    apply reg_of_due; assumption. }
  unfold expire_main.
  destruct (main w) as [|mid wrap c|r] eqn:Hmain.
  - apply Hsame. intros i fut k Hl Hw.
    destruct (Hm i fut k Hl Hw) as (? & ? & ?). congruence.
  - destruct (_pending w !! c) as [futc|] eqn:Hc.
    2:{ apply Hsame. intros i fut k Hl Hw.
        destruct (Hm i fut k Hl Hw) as (? & ? & E). rewrite Hmain in E.
        inversion E; subst. congruence. }
    destruct (fut_waiter futc) as [k|] eqn:Hwc.
    2:{ apply Hsame. intros i fut k Hl Hw.
        destruct (Hm i fut k Hl Hw) as (? & ? & E). rewrite Hmain in E.
        inversion E; subst. congruence. }
    destruct (Hd c futc Hc) as (Hclt & Hcdl & Hcnd & _).
    rewrite Hcnd. cbn [negb]. rewrite andb_true_r.
    destruct (N.leb_spec (fut_deadline futc) (clock w)) as [Hdue|Hnot].
    2:{ apply Hsame. intros i fut k' Hl Hw.
        destruct (Hm i fut k' Hl Hw) as (? & ? & E). rewrite Hmain in E.
        inversion E; subst. congruence. }
    set (e := timeout_error (fut_method futc)).
    set (w1 := settle c (inr e) (with_pending (delete c (_pending w)) w)).
    assert (Hl1 : forall i fut, _pending w1 !! i = Some fut ->
                    i <> c /\ _pending w !! i = Some fut).
    { intros i fut Hl. subst w1. fields_in Hl.
      destruct (decide (c = i)) as [->|Hne];
        [rewrite lookup_delete_eq in Hl; discriminate|].
      rewrite lookup_delete_ne in Hl by assumption. split; [congruence|exact Hl]. }
    assert (Hi1 : idle w1).
    { intros i fut Hl. destruct (Hl1 i fut Hl) as [Hne Hl'].
      destruct (fut_waiter fut) as [k'|] eqn:Hw; [|reflexivity].
      destruct (Hm i fut k' Hl' Hw) as (? & ? & E). rewrite Hmain in E.
      inversion E; subst. congruence. }
    assert (Hr1 : reg w1).
    { intros i fut Hl. destruct (Hl1 i fut Hl) as [Hne Hl'].
      destruct (Hd i fut Hl') as (H1 & H2 & H3 & H4).
      splits; try assumption. apply H4. exact (Hi1 i fut Hl). }
    assert (Hf1 : frame w w1).
    { unfold frame. subst w1. splits; fields.
      - lia.
      - intros x Hx. apply in_or_app. left. exact Hx.
      - intros i _ Hn. destruct (decide (c = i)) as [->|Hne];
          [apply lookup_delete_eq|rewrite lookup_delete_ne by assumption; exact Hn]. }
    assert (Hc1 : _pending w1 !! c = None) by (subst w1; fields; apply lookup_delete_eq).
    assert (Hs1 : In (c, inr e) (settled w1)).
    { subst w1. fields. apply in_or_app. right. left. reflexivity. }
    destruct (run_handler_inv mid wrap (k (inr e)) w1 Hr1 Hi1)
      as (Ha2 & Hr2 & Hm2 & Hf2 & Hk2 & Hc2 & Hb2).
    set (w2 := run_handler mid wrap (k (inr e)) w1) in *.
    (* what holds of any state reached from [w2] *)
    assert (Hfin : forall w3,
              frame w2 w3 ->
              (alive w3 ->
                 reg w3 /\ main_ok w3 /\ clock w3 = clock w2
                 /\ (forall line, In line (inbuf w3) -> In line (inbuf w2))
                 /\ forall i fut, _pending w2 !! i = Some fut ->
                      (forall line, In line (inbuf w2) -> ~ answers loads i line) ->
                      _pending w3 !! i = Some fut) ->
              frame w w3
              /\ (alive w3 ->
                  reg w3 /\ main_ok w3 /\ clock w3 = clock w
                  /\ (forall line, In line (inbuf w3) -> In line (inbuf w))
                  /\ forall i fut, _pending w !! i = Some fut ->
                       (forall line, In line (inbuf w) -> ~ answers loads i line) ->
                       _pending w3 !! i = Some fut
                       \/ (_pending w3 !! i = None
                           /\ In (i, inr (timeout_error (fut_method fut))) (settled w3)))).
    { intros w3 Hf3 Hrest.
      assert (Hf : frame w w3)
        by exact (frame_trans _ _ _ Hf1 (frame_trans _ _ _ Hf2 Hf3)).
      split; [exact Hf|]. intros Ha3.
      destruct (Hrest Ha3) as (R3 & M3 & C3 & B3 & K3).
      splits; try assumption.
      - rewrite C3, Hc2. reflexivity.
      - intros l Hl. apply B3 in Hl. rewrite Hb2 in Hl. exact Hl.
      - intros i fut Hl Hq.
        destruct (decide (i = c)) as [->|Hne].
        + right. assert (fut = futc) by congruence. subst fut.
          destruct (frame_trans _ _ _ Hf2 Hf3) as (_ & FS & FN).
          split; [apply FN; [|exact Hc1]|apply FS; exact Hs1].
          destruct Hf1 as (F1 & _). lia.
        + left. apply K3.
          * apply Hk2. subst w1. fields. rewrite lookup_delete_ne by congruence. exact Hl.
          * intros l Hin. apply Hq. rewrite Hb2 in Hin. exact Hin. }
    destruct (main w2) as [|mid2 wrap2 c2|r2] eqn:Hmain2.
    + destruct (drain_inv (inbuf w2) w2 Hr2 (idle_of_main_ok w2 Hm2 Hmain2)) as (Hf3 & Hrest3).
      apply Hfin; [exact Hf3|]. intros Ha3.
      destruct (Hrest3 Ha3) as (R3 & M3 & C3 & B3 & K3). splits; assumption.
    + apply Hfin; [apply frame_refl|]. intros _. splits; auto.
    + apply Hfin; [apply frame_refl|]. intros _. splits; auto.
  - split; [apply frame_refl|]. intros Ha. unfold alive in Ha. rewrite Hmain in Ha. destruct Ha.
Qed.


Lemma tick_inv w :
  reg w -> main_ok w ->
  let w' := tick loads repr w in
  frame w w'
  /\ (alive w' ->
      reg w' /\ main_ok w' /\ clock w' = (clock w + 1)%N
      /\ (forall line, In line (inbuf w') -> In line (inbuf w))
      /\ forall i fut, _pending w !! i = Some fut ->
           (forall line, In line (inbuf w) -> ~ answers loads i line) ->
           _pending w' !! i = Some fut
           \/ (_pending w' !! i = None
               /\ In (i, inr (timeout_error (fut_method fut))) (settled w'))).
Proof.
  intros Hr Hm.
  set (w1 := with_clock (clock w + 1)%N w).
  set (w2 := expire_detached w1).
  assert (Hf01 : frame w w1) by (apply frame_same; reflexivity).
  assert (Hgo : let w' := expire_main loads repr w2 in
            frame w w'
            /\ (alive w' ->
                reg w' /\ main_ok w' /\ clock w' = (clock w + 1)%N
                /\ (forall line, In line (inbuf w') -> In line (inbuf w))
                /\ forall i fut, _pending w !! i = Some fut ->
                     (forall line, In line (inbuf w) -> ~ answers loads i line) ->
                     _pending w' !! i = Some fut
                     \/ (_pending w' !! i = None
                         /\ In (i, inr (timeout_error (fut_method fut))) (settled w')))).
  { assert (Hd2 : reg_due w2).
    { intros i fut Hl. apply expire_detached_lookup in Hl. destruct Hl as [Hl Hnt].
      destruct (Hr i fut Hl) as (H1 & [H2 H3] & H4).
      splits; try assumption.
      - change (clock w2) with (clock w + 1)%N. lia.
      - intros Hw. change (clock w2) with (clock w + 1)%N.
        destruct (N.lt_ge_cases (clock w + 1) (fut_deadline fut)) as [Hlt|Hge];
          [exact Hlt|].
        exfalso. apply Hnt. unfold timed_out. cbn [fst snd].
        change (clock w1) with (clock w + 1)%N. splits; assumption. }
    assert (Hm2 : main_ok w2).
    { intros i fut k Hl Hw. apply expire_detached_lookup in Hl. destruct Hl as [Hl _].
      exact (Hm i fut k Hl Hw). }
    assert (Hf12 : frame w1 w2).
    { unfold frame. splits.
      - reflexivity.
      - intros x Hx. unfold w2, expire_detached. fields. apply in_or_app. left. exact Hx.
      - intros i _ Hn. destruct (_pending w2 !! i) as [fut|] eqn:Hl; [|reflexivity].
        apply expire_detached_lookup in Hl. destruct Hl as [Hl _]. congruence. }
    destruct (expire_main_inv w2 Hd2 Hm2) as (Hf23 & Hrest).
    intros w'. subst w'.
    split; [exact (frame_trans _ _ _ Hf01 (frame_trans _ _ _ Hf12 Hf23))|].
    intros Ha. destruct (Hrest Ha) as (R3 & M3 & C3 & B3 & K3).
    splits; try assumption.
    intros i fut Hl Hq.
    destruct (decide (timed_out (clock w1) (i, fut))) as [Ht|Hnt].
    - right. destruct Hf23 as (_ & FS & FN). split.
      + apply FN.
        * destruct (Hr i fut Hl) as (Hlt & _). exact Hlt.
        * destruct (_pending w2 !! i) as [fut'|] eqn:Hl2; [|reflexivity].
          apply expire_detached_lookup in Hl2. destruct Hl2 as [Hl2 Hnt].
          assert (fut' = fut) by (change (_pending w1) with (_pending w) in Hl2; congruence).
          subst fut'. contradiction.
      + apply FS. apply expire_detached_settled; assumption.
    - apply K3; [|exact Hq]. apply expire_detached_lookup. split; assumption. }
  unfold tick. fold w1. change (exit_at w1) with (exit_at w).
  assert (Hexit : frame w (stop Exited w1)
            /\ (alive (stop Exited w1) ->
                reg (stop Exited w1) /\ main_ok (stop Exited w1)
                /\ clock (stop Exited w1) = (clock w + 1)%N
                /\ (forall line, In line (inbuf (stop Exited w1)) -> In line (inbuf w))
                /\ forall i fut, _pending w !! i = Some fut ->
                     (forall line, In line (inbuf w) -> ~ answers loads i line) ->
                     _pending (stop Exited w1) !! i = Some fut
                     \/ (_pending (stop Exited w1) !! i = None
                         /\ In (i, inr (timeout_error (fut_method fut)))
                               (settled (stop Exited w1))))).
  { split; [exact (frame_trans _ _ _ Hf01 (frame_stop _ _))|].
    intros Ha. destruct (not_alive_stop _ _ Ha). }
  destruct (exit_at w) as [t|]; [|exact Hgo].
  destruct (t <=? clock w1)%N; [exact Hexit|exact Hgo].
Qed.

Lemma step_inv w ev :
  reg w -> main_ok w ->
  let w' := step loads repr w ev in
  frame w w'
  /\ (alive w' ->
      reg w' /\ main_ok w'
      /\ clock w' = (clock w + ticks [ev])%N
      /\ (forall line, In line (inbuf w') -> In line (inbuf w) \/ ev = EvRead line)
      /\ forall i fut, _pending w !! i = Some fut ->
           (forall line, In line (inbuf w) \/ ev = EvRead line -> ~ answers loads i line) ->
           _pending w' !! i = Some fut
           \/ (_pending w' !! i = None
               /\ In (i, inr (timeout_error (fut_method fut))) (settled w'))).
Proof.
  intros Hr Hm.
  (* the detached tasks start after the main task suspended *)
  assert (Hstart : forall w1 (n : N),
            frame w w1 ->
            (alive w1 ->
               reg w1 /\ main_ok w1 /\ clock w1 = (clock w + n)%N
               /\ (forall line, In line (inbuf w1) -> In line (inbuf w) \/ ev = EvRead line)
               /\ forall i fut, _pending w !! i = Some fut ->
                    (forall line, In line (inbuf w) \/ ev = EvRead line ->
                       ~ answers loads i line) ->
                    _pending w1 !! i = Some fut
                    \/ (_pending w1 !! i = None
                        /\ In (i, inr (timeout_error (fut_method fut))) (settled w1))) ->
            frame w (start_ready w1)
            /\ (alive (start_ready w1) ->
                reg (start_ready w1) /\ main_ok (start_ready w1)
                /\ clock (start_ready w1) = (clock w + n)%N
                /\ (forall line, In line (inbuf (start_ready w1)) ->
                      In line (inbuf w) \/ ev = EvRead line)
                /\ forall i fut, _pending w !! i = Some fut ->
                     (forall line, In line (inbuf w) \/ ev = EvRead line ->
                        ~ answers loads i line) ->
                     _pending (start_ready w1) !! i = Some fut
                     \/ (_pending (start_ready w1) !! i = None
                         /\ In (i, inr (timeout_error (fut_method fut)))
                               (settled (start_ready w1))))).
  { intros w1 n Hf1 Hrest.
    destruct (main w1) as [| |r] eqn:Hmain1.
    3:{ assert (Hs : start_ready w1 = w1) by (unfold start_ready; rewrite Hmain1; reflexivity).
        rewrite Hs. split; [exact Hf1|]. intros Ha. unfold alive in Ha.
        rewrite Hmain1 in Ha. destruct Ha. }
    all: assert (Ha1 : alive w1) by (unfold alive; rewrite Hmain1; exact I);
      destruct (Hrest Ha1) as (R1 & M1 & C1 & B1 & K1);
      destruct (start_ready_inv w1 R1 M1) as (R2 & M2 & F2 & K2 & C2 & B2 & Mn2);
      (split; [exact (frame_trans _ _ _ Hf1 F2)|]); intros _; splits;
      [ exact R2 | exact M2 | rewrite C2; exact C1
      | intros l Hl; rewrite B2 in Hl; exact (B1 l Hl)
      | intros i fut Hl Hq; destruct (K1 i fut Hl Hq) as [Hs|[Hn Hin]];
        [ left; exact (K2 i fut Hs)
        | right; destruct F2 as (_ & FS & FN); split;
          [ apply FN; [|exact Hn]; destruct Hf1 as (F1 & _);
            destruct (Hr i fut Hl) as (Hlt & _); lia
          | exact (FS _ Hin) ] ] ]. }
  unfold step.
  destruct (main w) as [|mid wrap c|r] eqn:Hmain.
  - destruct ev as [line|].
    + destruct (loop_body_inv line w Hr (idle_of_main_ok w Hm Hmain)) as (Hf & Hrest).
      apply (Hstart _ 0%N); [exact Hf|]. intros Ha.
      destruct (Hrest Ha) as (R1 & M1 & C1 & B1 & K1).
      splits; try assumption.
      * rewrite C1. lia.
      * intros l Hl. left. rewrite B1 in Hl. exact Hl.
      * intros i fut Hl Hq. left. apply K1; [exact Hl|]. apply Hq. right. reflexivity.
    + destruct (tick_inv w Hr Hm) as (Hf & Hrest).
      apply (Hstart _ 1%N); [exact Hf|]. intros Ha.
      destruct (Hrest Ha) as (R1 & M1 & C1 & B1 & K1).
      splits; try assumption.
      * intros l Hl. left. exact (B1 l Hl).
      * intros i fut Hl Hq. apply K1; [exact Hl|]. intros l Hin. apply Hq. left. exact Hin.
  - destruct ev as [line|].
    + split; [apply frame_same; reflexivity|]. intros _. splits.
      * exact Hr.
      * exact Hm.
      * cbn. lia.
      * intros l Hl. cbn in Hl. apply in_app_or in Hl.
        destruct Hl as [Hl|[Hl|[]]]; [left; exact Hl|right; congruence].
      * intros i fut Hl _. left. exact Hl.
    + destruct (tick_inv w Hr Hm) as (Hf & Hrest).
      apply (Hstart _ 1%N); [exact Hf|]. intros Ha.
      destruct (Hrest Ha) as (R1 & M1 & C1 & B1 & K1).
      splits; try assumption.
      * intros l Hl. left. exact (B1 l Hl).
      * intros i fut Hl Hq. apply K1; [exact Hl|]. intros l Hin. apply Hq. left. exact Hin.
  - split; [apply frame_refl|]. intros Ha. unfold alive in Ha. rewrite Hmain in Ha. destruct Ha.
Qed.


Lemma alive_step w ev : alive (step loads repr w ev) -> alive w.
Proof.
  unfold alive, step. destruct (main w) eqn:Hmain; auto.
  rewrite Hmain. auto.
Qed.

Lemma alive_run evs : forall w, alive (run loads repr w evs) -> alive w.
Proof.
  induction evs as [|ev evs IH]; intros w Ha; [exact Ha|].
  apply (alive_step w ev), IH. exact Ha.
Qed.


Lemma run_inv evs : forall w,
  reg w -> main_ok w -> alive (run loads repr w evs) ->
  reg (run loads repr w evs) /\ main_ok (run loads repr w evs)
  /\ clock (run loads repr w evs) = (clock w + ticks evs)%N.
Proof.
  induction evs as [|ev evs IH]; intros w Hr Hm Ha.
  - splits; try assumption. cbn. lia.
  - change (run loads repr w (ev :: evs)) with (run loads repr (step loads repr w ev) evs) in *.
    destruct (step_inv w ev Hr Hm) as (_ & Hrest).
    destruct (Hrest (alive_run evs _ Ha)) as (R1 & M1 & C1 & _).
    destruct (IH _ R1 M1 Ha) as (R2 & M2 & C2). splits; try assumption.
    rewrite C2, C1. destruct ev; cbn [ticks]; lia.
Qed.

Lemma reg_init skill : reg (init skill) /\ main_ok (init skill).
Proof.
  split.
  - intros i fut Hl. cbn in Hl. rewrite lookup_empty in Hl. discriminate.
  - intros i fut k Hl. cbn in Hl. rewrite lookup_empty in Hl. discriminate.
Qed.

(** Whenever the main task is reading, every pending call is a detached one:
    a Response is only ever matched against detached calls, and the call a
    handler awaits is never resolved by the host. *)
Lemma reading_main_awaits_nothing skill evs :
  main (run loads repr (init skill) evs) = AtReadline ->
  idle (run loads repr (init skill) evs).
Proof.
  intros Hmain.
  assert (Ha : alive (run loads repr (init skill) evs))
    by (unfold alive; rewrite Hmain; exact I).
  destruct (reg_init skill) as [R0 M0].
  destruct (run_inv evs _ R0 M0 Ha) as (_ & M & _).
  exact (idle_of_main_ok _ M Hmain).
Qed.

(** While the main task is suspended in a handler, a line from the host is
    only put into the reader's buffer. *)
Lemma suspended_main_reads_nothing w mid wrap c line :
  main w = InHandler mid wrap c ->
  step loads repr w (EvRead line) = with_inbuf (inbuf w ++ [line]) w.
Proof. intros Hmain. unfold step. rewrite Hmain. reflexivity. Qed.



End Timeout.


(** * Further properties of the server *)

(** ** What is written, and which ids it carries *)

Lemma emits_same w w' :
  _tools w' = _tools w -> _hooks w' = _hooks w -> _next_id w' = _next_id w ->
  stdout w' = stdout w -> emits w w'.
Proof.
  intros Ht Hh Hn Hs. unfold emits. splits; try assumption; try lia.
  exists []. rewrite app_nil_r, Hn, Z.sub_diag. split; [exact Hs|reflexivity].
Qed.

Lemma emits_refl w : emits w w.
Proof. apply emits_same; reflexivity. Qed.

Lemma request_ids_app l1 l2 : request_ids (l1 ++ l2) = (request_ids l1 ++ request_ids l2)%list.
Proof. unfold request_ids. apply omap_app. Qed.

Lemma emits_trans w1 w2 w3 : emits w1 w2 -> emits w2 w3 -> emits w1 w3.
Proof.
  intros (T1 & H1 & N1 & f1 & S1 & R1) (T2 & H2 & N2 & f2 & S2 & R2).
  unfold emits. splits; try congruence; try lia.
  exists (f1 ++ f2)%list. split.
  - rewrite S2, S1, app_assoc. reflexivity.
  - rewrite request_ids_app, R1, R2.
    replace (_next_id w3 - _next_id w1)
      with ((_next_id w2 - _next_id w1) + (_next_id w3 - _next_id w2)) by lia.
    rewrite seqZ_app by lia. f_equal. f_equal. lia.
Qed.

Lemma emits_reply w frame :
  request_id frame = None -> emits w (_write_message frame w).
Proof.
  intros Hf. unfold emits. fields. splits; try reflexivity; try lia.
  exists [frame]. split; [reflexivity|].
  rewrite Z.sub_diag. unfold request_ids. cbn. rewrite Hf. reflexivity.
Qed.

Lemma emits_respond mid r w : emits w (respond mid r w).
Proof.
  unfold respond. destruct r; destruct (is_not_None mid);
    try apply emits_refl; try (apply emits_reply; reflexivity).
  apply emits_same; reflexivity.
Qed.

Lemma request_id_frame i m ps : request_id (request_frame i m ps) = Some i.
Proof. reflexivity. Qed.

Lemma emits_reverse_rpc m ps wt w : emits w (_reverse_rpc m ps wt w).
Proof.
  unfold emits, _reverse_rpc. fields. splits; try reflexivity; try lia.
  exists [request_frame (_next_id w) m ps]. split; [reflexivity|].
  replace (_next_id w + 1 - _next_id w) with 1 by lia.
  reflexivity.
Qed.

Lemma emits_exec p : forall w w' o, exec p w = (w', o) -> emits w w'.
Proof.
  induction p as [v|e|m ps k IH|m ps k IH|msg k IH|d ex IHex k IH|n k IH|k IH];
    intros w w' o Hex; cbn in Hex.
  - inversion Hex; subst. apply emits_refl.
  - inversion Hex; subst. apply emits_refl.
  - inversion Hex; subst. apply emits_reverse_rpc.
  - apply IH in Hex. eapply emits_trans; [|exact Hex]. apply emits_same; reflexivity.
  - apply IH in Hex. eapply emits_trans; [|exact Hex]. apply emits_same; reflexivity.
  - apply IH in Hex. exact Hex.
  - apply IH in Hex. exact Hex.
  - apply IH in Hex. exact Hex.
Qed.

Lemma emits_run_handler mid wrap p w : emits w (run_handler mid wrap p w).
Proof.
  unfold run_handler. destruct (exec p w) as [w1 o] eqn:Hex.
  apply emits_exec in Hex.
  destruct o as [[v|e]|c].
  - eapply emits_trans; [exact Hex|].
    eapply emits_trans; [|apply emits_respond]. apply emits_same; reflexivity.
  - eapply emits_trans; [exact Hex|].
    eapply emits_trans; [|apply emits_respond]. apply emits_same; reflexivity.
  - eapply emits_trans; [exact Hex|]. apply emits_same; reflexivity.
Qed.

Section Emits.
Variable loads : string -> option json.
Variable repr : json -> string.

Lemma emits_dispatch method params w w1 act :
  _dispatch repr method params w = (w1, act) -> emits w w1.
Proof.
  unfold _dispatch. intros H.
  repeat match type of H with
         | context [if ?c then _ else _] => destruct c
         | context [match ?x with _ => _ end] => destruct x
         end;
    inversion H; subst; apply emits_same; reflexivity.
Qed.

Lemma emits_stop r w : emits w (stop r w).
Proof. apply emits_same; reflexivity. Qed.

Lemma emits_handle_message msg w : emits w (_handle_message repr msg w).
Proof.
  destruct msg as [|b|z|f|s|l|m]; try apply emits_stop.
  unfold _handle_message.
  destruct (dict_has m "result" || dict_has m "error").
  - destruct (hash_key (dict_get_or m "id" JNull)) as [i| |ty];
      [|apply emits_refl
       |destruct (Nat.eqb (size (_pending w)) 0); [apply emits_refl|apply emits_stop]].
    destruct (_pending w !! i) as [fut|]; [|apply emits_refl].
    destruct (negb (fut_done fut)); [|apply emits_same; reflexivity].
    destruct (dict_has m "error"); [|apply emits_same; reflexivity].
    destruct (dict_get_or m "error" JNull); apply emits_same; reflexivity.
  - destruct (_dispatch repr (dict_get_or m "method" (JStr "")) (dict_get_or m "params" JNull) w)
      as [w1 act] eqn:Hd.
    apply emits_dispatch in Hd.
    destruct act as [r|p wrap].
    + eapply emits_trans; [exact Hd|apply emits_respond].
    + eapply emits_trans; [exact Hd|apply emits_run_handler].
Qed.

Lemma emits_loop_body line w : emits w (loop_body loads repr line w).
Proof.
  unfold loop_body. destruct line as [|b l]; [apply emits_stop|].
  destruct (decode (b :: l)); [|apply emits_stop].
  destruct (String.eqb (strip s) ""); [apply emits_refl|].
  destruct (loads (strip s)); [apply emits_handle_message|].
  apply emits_same; reflexivity.
Qed.

Lemma emits_drain buf : forall w, emits w (drain loads repr buf w).
Proof.
  induction buf as [|line rest IH]; intros w; cbn [drain].
  - apply emits_same; reflexivity.
  - assert (H1 : emits w (loop_body loads repr line (with_inbuf rest w))).
    { eapply emits_trans; [|apply emits_loop_body]. apply emits_same; reflexivity. }
    destruct (main (loop_body loads repr line (with_inbuf rest w))); try exact H1.
    eapply emits_trans; [exact H1|apply IH].
Qed.

Lemma emits_expire_main w : emits w (expire_main loads repr w).
Proof.
  unfold expire_main.
  destruct (main w) as [|mid wrap c|r]; try apply emits_refl.
  destruct (_pending w !! c) as [fut|]; [|apply emits_refl].
  destruct (fut_waiter fut) as [k|]; [|apply emits_refl].
  destruct ((fut_deadline fut <=? clock w)%N && negb (fut_done fut)); [|apply emits_refl].
  set (w1 := settle c _ _).
  assert (H1 : emits w (run_handler mid wrap (k (inr (timeout_error (fut_method fut)))) w1)).
  { eapply emits_trans; [|apply emits_run_handler]. apply emits_same; reflexivity. }
  destruct (main (run_handler mid wrap (k (inr (timeout_error (fut_method fut)))) w1));
    try exact H1.
  eapply emits_trans; [exact H1|apply emits_drain].
Qed.

Lemma emits_tick w : emits w (tick loads repr w).
Proof.
  unfold tick.
  assert (H : emits w (expire_main loads repr (expire_detached (with_clock (clock w + 1)%N w)))).
  { eapply emits_trans; [|apply emits_expire_main]. apply emits_same; reflexivity. }
  cbn [exit_at with_clock].
  destruct (exit_at w) as [t|]; [|exact H].
  destruct (t <=? _)%N; [|exact H].
  apply emits_same; reflexivity.
Qed.

Lemma emits_start_calls calls : forall w,
  emits w (fold_left (fun w' call => _reverse_rpc (fst call) (snd call) Detached w') calls w).
Proof.
  induction calls as [|c calls IH]; intros w; cbn [fold_left].
  - apply emits_refl.
  - eapply emits_trans; [apply emits_reverse_rpc|apply IH].
Qed.

Lemma emits_start_ready w : emits w (start_ready w).
Proof.
  unfold start_ready. destruct (main w); try apply emits_refl.
  all: eapply emits_trans; [|apply emits_start_calls]; apply emits_same; reflexivity.
Qed.

Lemma emits_step w ev : emits w (step loads repr w ev).
Proof.
  unfold step. destruct (main w); [| |apply emits_refl]; destruct ev.
  - eapply emits_trans; [apply emits_loop_body|apply emits_start_ready].
  - eapply emits_trans; [apply emits_tick|apply emits_start_ready].
  - apply emits_same; reflexivity.
  - eapply emits_trans; [apply emits_tick|apply emits_start_ready].
Qed.

Lemma emits_run evs : forall w, emits w (run loads repr w evs).
Proof.
  induction evs as [|ev evs IH]; intros w; [apply emits_refl|].
  change (run loads repr w (ev :: evs)) with (run loads repr (step loads repr w ev) evs).
  eapply emits_trans; [apply emits_step|apply IH].
Qed.

(** X7. The Requests the server has written to stdout carry, in the
    order written, the ids 1, 2, ..., [_next_id - 1]: no id is skipped,
    repeated or used again. *)
Theorem request_ids_count_up skill evs :
  let w := run loads repr (init skill) evs in
  request_ids (stdout w) = seqZ 1 (_next_id w - 1).
Proof.
  intros w. destruct (emits_run evs (init skill)) as (_ & _ & _ & frames & Hs & Hr).
  fold w in Hs, Hr. rewrite Hs. cbn in *. exact Hr.
Qed.

(** X6. Nothing that happens at run time changes the registry: after
    any history [_tools] is what [__init__] built, and [tools/list] gives
    the answer it gave at the start. *)
Theorem registry_is_fixed skill evs params :
  let w := run loads repr (init skill) evs in
  _tools w = _tools (init skill)
  /\ snd (_dispatch repr (JStr "tools/list") params w)
     = snd (_dispatch repr (JStr "tools/list") params (init skill)).
Proof.
  intros w. destruct (emits_run evs (init skill)) as (Ht & _).
  fold w in Ht. split; [exact Ht|]. cbn. rewrite Ht. reflexivity.
Qed.

End Emits.

Section Dispatch.
Variable loads : string -> option json.
Variable repr : json -> string.





(** X14. A line that is valid JSON but no object ends the loop: the
    membership test at the top of [_handle_message] raises [TypeError] (a
    number, [null], a boolean) or the [.get] after it raises
    [AttributeError] (a string, a list), nothing catches it, and the process
    is gone without a Response and without a call of [log]. *)
Theorem non_object_line_ends_loop w line msg :
  main w = AtReadline -> reads loads line msg -> (forall m, msg <> JDict m) ->
  let w' := step loads repr w (EvRead line) in
  (exists e, main w' = Stopped (Crashed e)
             /\ (exn_class e = "TypeError" \/ exn_class e = "AttributeError"))
  /\ stdout w' = stdout w /\ stderr w' = stderr w.
Proof.
  intros Hmain Hreads Hno w'. subst w'. unfold step. rewrite Hmain.
  rewrite (loop_body_reads loads repr line msg w Hreads).
  destruct msg as [|b|z|f|s|l|m]; try (exfalso; exact (Hno m eq_refl));
    (split; [eexists; split; [reflexivity|cbn; tauto]|split; reflexivity]).
Qed.

(** X15. Two Responses end the loop instead of being dropped.  One
    whose [id] is a list or an object raises [TypeError: unhashable type] at
    [_pending.pop] whenever some call is registered; when [_pending] is
    empty the same Response is dropped and the state is as before, since
    [pop] then returns its default without hashing the key.  An error
    Response for a live call whose [error] member is no object raises
    [AttributeError] at [.get], after the entry of the call was removed. *)
Theorem malformed_response_ends_loop w m :
  is_response m = true ->
  ((exists ty, response_key m = KUnhashable ty) ->
     (_pending w = ∅ -> _handle_message repr (JDict m) w = w)
     /\ (forall i fut, _pending w !! i = Some fut ->
           main (_handle_message repr (JDict m) w)
           = Stopped (Crashed (Exception "TypeError"
                       ("unhashable type: '" ++ type_name (dict_get_or m "id" JNull)
                        ++ "'")))))
  /\ (forall i fut e,
        response_key m = KInt i -> _pending w !! i = Some fut -> fut_done fut = false ->
        dict_get m "error" = Some e -> (forall d, e <> JDict d) ->
        main (_handle_message repr (JDict m) w) = Stopped (Crashed (no_attribute_get e))
        /\ _pending (_handle_message repr (JDict m) w) !! i = None).
Proof.
  unfold is_response, response_key. intros Hr. split.
  - intros [ty Hk]. unfold _handle_message. rewrite Hr, Hk.
    assert (Hty : ty = type_name (dict_get_or m "id" JNull)).
    { destruct (dict_get_or m "id" JNull) as [|b|z|f|s|l|d]; unfold hash_key in Hk;
        try discriminate.
      - destruct f as [q| |]; try discriminate.
        destruct (_ =? _); discriminate.
      - inversion Hk. reflexivity.
      - inversion Hk. reflexivity. }
    rewrite Hty. split.
    + intros He. rewrite He, map_size_empty. reflexivity.
    + intros i fut Hl.
      destruct (Nat.eqb_spec (size (_pending w)) 0) as [Hz|_]; [|reflexivity].
      apply map_size_empty_iff in Hz. rewrite Hz, lookup_empty in Hl. discriminate Hl.
  - intros i fut e Hk Hl Hd He Hno.
    assert (Hhas : dict_has m "error" = true) by (unfold dict_has; rewrite He; reflexivity).
    assert (Hget : dict_get_or m "error" JNull = e) by (unfold dict_get_or; rewrite He; reflexivity).
    unfold _handle_message. rewrite Hr, Hk, Hl, Hd, Hhas, Hget. cbn [negb].
    destruct e as [|b|z|f|s|l|d]; try (exfalso; exact (Hno d eq_refl));
      (split; [reflexivity|cbn; rewrite lookup_fmap, lookup_delete_eq; reflexivity]).
Qed.

End Dispatch.

(** The registry built by [__init__]. *)
Lemma tools_get_set d k t k' :
  tools_get (tools_set d k t) k' = if String.eqb k k' then Some t else tools_get d k'.
Proof.
  induction d as [|[k0 t0] d IH]; cbn.
  - destruct (String.eqb k k'); reflexivity.
  - destruct (String.eqb_spec k0 k) as [->|Hne]; cbn.
    + destruct (String.eqb k k'); reflexivity.
    + rewrite IH. destruct (String.eqb_spec k0 k') as [->|Hne'].
      * destruct (String.eqb_spec k k') as [->|_]; [congruence|reflexivity].
      * reflexivity.
Qed.

Lemma tools_set_keys d k t :
  map fst (tools_set d k t) = if decide (k ∈ map fst d) then map fst d else (map fst d ++ [k])%list.
Proof.
  induction d as [|[k0 t0] d IH]; cbn.
  - destruct (decide (k ∈ [])) as [H|_]; [inversion H|reflexivity].
  - destruct (String.eqb_spec k0 k) as [->|Hne]; cbn.
    + destruct (decide (k ∈ k :: map fst d)) as [_|H]; [reflexivity|].
      exfalso. apply H. left.
    + rewrite IH. destruct (decide (k ∈ map fst d)) as [Hin|Hnin].
      * destruct (decide (k ∈ k0 :: map fst d)) as [_|H]; [reflexivity|].
        exfalso. apply H. right. exact Hin.
      * destruct (decide (k ∈ k0 :: map fst d)) as [H|_]; [|reflexivity].
        inversion H; subst; [congruence|contradiction].
Qed.

Lemma tools_set_fresh d k t :
  k ∉ map fst d -> tools_set d k t = (d ++ [(k, t)])%list.
Proof.
  induction d as [|[k0 t0] d IH]; intros Hn; cbn; [reflexivity|].
  destruct (String.eqb_spec k0 k) as [->|Hne].
  - exfalso. apply Hn. left.
  - rewrite IH; [reflexivity|]. intros Hin. apply Hn. right. exact Hin.
Qed.

Lemma tools_set_named d t : named d -> named (tools_set d (name (definition t)) t).
Proof.
  induction d as [|[k0 t0] d IH]; intros Hd k t' Hin; cbn in Hin.
  - destruct Hin as [Hin|[]]. inversion Hin; subst. reflexivity.
  - destruct (String.eqb_spec k0 (name (definition t))) as [->|Hne].
    + destruct Hin as [Hin|Hin].
      * inversion Hin; subst. reflexivity.
      * apply Hd. right. exact Hin.
    + destruct Hin as [Hin|Hin].
      * apply Hd. left. exact Hin.
      * apply IH; [|exact Hin]. intros k1 t1 H1. apply Hd. right. exact H1.
Qed.

Lemma find_app_last {A} (f : A -> bool) (l : list A) (x : A) :
  find f (l ++ [x]) = match find f l with
                      | Some y => Some y
                      | None => if f x then Some x else None
                      end.
Proof.
  induction l as [|a l IH]; cbn; [reflexivity|].
  destruct (f a); [reflexivity|exact IH].
Qed.

Lemma registry_fold ts : forall d,
  NoDup (map fst d) -> named d ->
  let d' := fold_left (fun d t => tools_set d (name (definition t)) t) ts d in
  NoDup (map fst d') /\ named d'
  /\ (forall n, tools_get d' n
                = match find (fun t => String.eqb (name (definition t)) n) (rev ts) with
                  | Some t => Some t
                  | None => tools_get d n
                  end)
  /\ (NoDup (map fst d ++ map (fun t => name (definition t)) ts) ->
      d' = (d ++ map (fun t => (name (definition t), t)) ts)%list).
Proof.
  induction ts as [|t ts IH]; intros d Hnd Hnm; cbn [fold_left].
  - splits; try assumption; [reflexivity|]. intros _. cbn. rewrite app_nil_r. reflexivity.
  - set (d1 := tools_set d (name (definition t)) t).
    assert (Hnd1 : NoDup (map fst d1)).
    { unfold d1. rewrite tools_set_keys. destruct (decide _) as [Hin|Hnin]; [exact Hnd|].
      apply NoDup_app. splits; [exact Hnd| |apply NoDup_singleton].
      intros x Hx Hx'. apply list_elem_of_singleton in Hx'. subst. contradiction. }
    assert (Hnm1 : named d1) by (apply tools_set_named; exact Hnm).
    destruct (IH d1 Hnd1 Hnm1) as (A & B & C & D). splits; try assumption.
    + intros n. rewrite C. cbn [rev]. rewrite find_app_last.
      destruct (find _ (rev ts)); [reflexivity|].
      unfold d1. rewrite tools_get_set.
      destruct (String.eqb (name (definition t)) n); reflexivity.
    + intros Hall. cbn [map] in Hall.
      assert (Hfresh : name (definition t) ∉ map fst d).
      { intros Hin. apply NoDup_app in Hall. destruct Hall as (_ & Hdis & _).
        apply (Hdis _ Hin). left. }
      assert (Hd1 : d1 = (d ++ [(name (definition t), t)])%list)
        by (apply tools_set_fresh; exact Hfresh).
      rewrite D.
      * rewrite Hd1, <- app_assoc. reflexivity.
      * rewrite Hd1, map_app. cbn [map fst]. rewrite <- app_assoc. exact Hall.
Qed.

(** X5. The registry [__init__] builds has one entry per tool name:
    looking a name up gives the last tool of [skill.tools] that has it (an
    earlier one is silently replaced), and when the names are distinct the
    registry lists the tools in the order given. *)
Theorem registry_keeps_last_tool skill :
  NoDup (map fst (_tools (init skill)))
  /\ (forall n, tools_get (_tools (init skill)) n
                = find (fun t => String.eqb (name (definition t)) n) (rev (tools skill)))
  /\ (NoDup (map (fun t => name (definition t)) (tools skill)) ->
      _tools (init skill) = map (fun t => (name (definition t), t)) (tools skill)).
Proof.
  destruct (registry_fold (tools skill) []) as (A & B & C & D).
  - apply NoDup_nil_2.
  - intros k t [].
  - splits.
    + exact A.
    + intros n. cbn [init _tools]. rewrite C. destruct (find _ _); reflexivity.
    + intros Hnd. exact (D Hnd).
Qed.

Lemma tools_get_in d : NoDup (map fst d) -> forall k t, In (k, t) d -> tools_get d k = Some t.
Proof.
  induction d as [|[k0 t0] d IH]; intros Hnd k t Hin; [destruct Hin|].
  cbn. cbn in Hnd. apply NoDup_cons in Hnd. destruct Hnd as [Hnin Hnd].
  destruct Hin as [Hin|Hin].
  - inversion Hin; subst. rewrite String.eqb_refl. reflexivity.
  - destruct (String.eqb_spec k0 k) as [->|Hne].
    + exfalso. apply Hnin. apply list_elem_of_In, in_map_iff. exists (k, t). split; [reflexivity|exact Hin].
    + apply IH; assumption.
Qed.

Section Registry.
Variable loads : string -> option json.
Variable repr : json -> string.

(** X4. After any history, [tools/list] advertises the tools of the
    registry, one entry per key, in insertion order; the [name] of an entry
    is the key of its tool, and [tools/call] with that name and any
    arguments invokes the [execute] of that tool on the arguments, its
    result read as a tool result. *)
Theorem advertised_tools_are_callable skill evs params :
  let w := run loads repr (init skill) evs in
  snd (_dispatch repr (JStr "tools/list") params w)
  = Immediate (inl (JDict [("tools", JList (map (fun kt => advertise (snd kt)) (_tools w)))]))
  /\ forall k t, In (k, t) (_tools w) ->
       advertise t
       = JDict [("name", JStr k); ("description", JStr (description (definition t)));
                ("inputSchema",
                 JDict [("type", JStr "object");
                        ("properties",
                         dict_get_or (parameters (definition t)) "properties" (JDict []));
                        ("required",
                         dict_get_or (parameters (definition t)) "required" JNull)])]
       /\ forall args,
            _dispatch repr (JStr "tools/call")
              (JDict [("name", JStr k); ("arguments", args)]) w
            = (w, Invoke (execute t args) tool_result).
Proof.
  intros w. split; [reflexivity|].
  intros k t Hin.
  destruct (emits_run loads repr evs (init skill)) as (Ht & _). fold w in Ht.
  destruct (registry_fold (tools skill) []) as (A & B & _).
  { apply NoDup_nil_2. }
  { intros k' t' []. }
  change (fold_left _ _ _) with (_tools (init skill)) in A, B.
  rewrite <- Ht in A, B.
  split.
  - unfold advertise. rewrite (B k t Hin). reflexivity.
  - intros args. unfold _dispatch. cbn [str_eq String.eqb Ascii.eqb Bool.eqb].
    cbn. rewrite (tools_get_in _ A k t Hin). reflexivity.
Qed.

End Registry.

Section ToolCalls.
Variable loads : string -> option json.
Variable repr : json -> string.

(** X2. [tools/call] for a name that is no key of the registry (a
    string that is not registered, a missing [name], whose default is the
    empty string, or a value that is no string) never reaches skill code: a
    Request gets the error -32603 with [Unknown tool: <name>], or with
    [unhashable type: 'list'] or ['dict'] when the name cannot even be looked
    up; a Notification only gets [Notification handler error: ...] on
    stderr. *)
Theorem unknown_tool_is_reported w m :
  is_response m = false ->
  dict_get_or m "method" (JStr "") = JStr "tools/call" ->
  let p := match dict_get_or m "params" JNull with JDict d => d | _ => [] end in
  let tool_name := dict_get_or p "name" (JStr "") in
  let msg_id := dict_get_or m "id" JNull in
  (forall s, tool_name = JStr s -> tools_get (_tools w) s = None) ->
  let text := match tool_name with
              | JList _ | JDict _ => "unhashable type: '" ++ type_name tool_name ++ "'"
              | _ => "Unknown tool: " ++ py_str repr tool_name
              end in
  _handle_message repr (JDict m) w
  = if is_not_None msg_id then _send_error msg_id (-32603) text w
    else log ("Notification handler error: " ++ text) w.
Proof.
  intros Hr Hmeth p tool_name msg_id Hno text.
  unfold is_response in Hr. unfold _handle_message. rewrite Hr, Hmeth.
  unfold _dispatch. cbn [str_eq String.eqb Ascii.eqb Bool.eqb].
  fold p. fold tool_name. fold msg_id.
  subst text. destruct tool_name as [|b|z|f|s|l|d] eqn:E; try reflexivity.
  rewrite (Hno s eq_refl). reflexivity.
Qed.


End ToolCalls.

Lemma start_calls_order calls : forall w,
  let w' := fold_left (fun w' call => _reverse_rpc (fst call) (snd call) Detached w') calls w in
  _next_id w' = _next_id w + Z.of_nat (length calls)
  /\ clock w' = clock w
  /\ ready w' = ready w
  /\ stdout w'
     = (stdout w ++
        imap (fun i call => request_frame (_next_id w + Z.of_nat i) (fst call) (snd call))
             calls)%list
  /\ (forall i call, calls !! i = Some call ->
        _pending w' !! (_next_id w + Z.of_nat i) = Some (detached w (fst call)))
  /\ (forall j, j < _next_id w -> _pending w' !! j = _pending w !! j).
Proof.
  induction calls as [|call calls IH]; intros w; cbn [fold_left].
  - cbn. splits; try reflexivity; try lia.
    + rewrite app_nil_r. reflexivity.
    + intros i c H. destruct i; discriminate H.
  - set (w1 := _reverse_rpc (fst call) (snd call) Detached w).
    destruct (IH w1) as (A & B & C & D & E & F).
    assert (Hn1 : _next_id w1 = _next_id w + 1) by reflexivity.
    assert (Hc1 : clock w1 = clock w) by reflexivity.
    splits.
    + rewrite A, Hn1. cbn [length]. lia.
    + rewrite B. exact Hc1.
    + rewrite C. reflexivity.
    + rewrite D. cbn [imap]. unfold w1 at 1. cbn [stdout _reverse_rpc _write_message with_stdout].
      rewrite <- app_assoc. cbn [app]. f_equal. f_equal.
      * f_equal. lia.
      * apply imap_ext. intros i c _. unfold compose. rewrite Hn1. f_equal. lia.
    + intros i c Hi. destruct i as [|i].
      * cbn in Hi. inversion Hi; subst c. rewrite F by (rewrite Hn1; lia).
        replace (_next_id w + Z.of_nat 0) with (_next_id w) by lia.
        unfold w1. cbn. rewrite lookup_insert_eq. reflexivity.
      * cbn in Hi. specialize (E i c Hi). rewrite Hn1 in E.
        replace (_next_id w + Z.of_nat (S i)) with (_next_id w + 1 + Z.of_nat i) by lia.
        rewrite E. unfold detached. rewrite Hc1. reflexivity.
    + intros j Hj. rewrite F by (rewrite Hn1; lia).
      unfold w1. cbn. rewrite lookup_insert_ne by lia. reflexivity.
Qed.

(** X11. When the main task suspends, the calls detached by
    [ctx.set_state] and [ctx.emit_event] start in the order they were made:
    their Requests go to stdout in that order with consecutive ids from
    [_next_id], each is registered under its id with the 30 s deadline, the
    queue is empty afterwards, and the earlier entries of [_pending] are
    untouched. *)
Theorem detached_calls_start_in_order w :
  alive w ->
  let w' := start_ready w in
  ready w' = []
  /\ stdout w'
     = (stdout w ++
        imap (fun i call => request_frame (_next_id w + Z.of_nat i) (fst call) (snd call))
             (ready w))%list
  /\ _next_id w' = _next_id w + Z.of_nat (length (ready w))
  /\ (forall i call, ready w !! i = Some call ->
        _pending w' !! (_next_id w + Z.of_nat i) = Some (detached w (fst call)))
  /\ (forall j, j < _next_id w -> _pending w' !! j = _pending w !! j).
Proof.
  intros Ha w'. subst w'. unfold start_ready. unfold alive in Ha.
  destruct (start_calls_order (ready w) (with_ready [] w)) as (A & B & C & D & E & F).
  destruct (main w) eqn:Hm; [| |destruct Ha]; splits; assumption.
Qed.

(** ** The books of the reverse calls *)

Lemma once_same w w' :
  _pending w' = _pending w -> settled w' = settled w -> _next_id w' = _next_id w ->
  (forall x, In x (stdout w) -> In x (stdout w')) ->
  once w -> once w'.
Proof.
  intros Hp Hs Hn Ho (A & N & B & C). unfold once. rewrite Hp, Hs, Hn.
  splits; try assumption.
  intros i fut Hl. destruct (B i fut Hl) as [Hr [ps Hin]].
  split; [exact Hr|]. exists ps. exact (Ho _ Hin).
Qed.

Ltac once_by_same := apply once_same; try reflexivity; intros ? ?; try assumption;
             fields; apply in_or_app; left; assumption.

Lemma once_reverse_rpc m ps wt w : once w -> once (_reverse_rpc m ps wt w).
Proof.
  intros (A & N & B & C). unfold once, _reverse_rpc. fields. splits.
  - exact A.
  - lia.
  - intros i fut Hl. destruct (decide (i = _next_id w)) as [->|Hne].
    + rewrite lookup_insert_eq in Hl. inversion Hl; subst fut. cbn [fut_method].
      split; [lia|]. exists ps. apply in_or_app. right. left. reflexivity.
    + rewrite lookup_insert_ne in Hl by congruence.
      destruct (B i fut Hl) as [Hr [ps' Hin]]. split; [lia|].
      exists ps'. apply in_or_app. left. exact Hin.
  - intros i Hin. destruct (C i Hin) as [Hlt Hd]. split; [lia|].
    intros fut Hl. rewrite lookup_insert_ne in Hl by lia. exact (Hd fut Hl).
Qed.

Lemma once_exec p : forall w w' o, exec p w = (w', o) -> once w -> once w'.
Proof.
  induction p as [v|e|m ps k IH|m ps k IH|msg k IH|d ex IHex k IH|n k IH|k IH];
    intros w w' o Hex Ho; cbn in Hex.
  - inversion Hex; subst. exact Ho.
  - inversion Hex; subst. exact Ho.
  - inversion Hex; subst. apply once_reverse_rpc. exact Ho.
  - apply IH in Hex; [exact Hex|]. revert Ho. once_by_same.
  - apply IH in Hex; [exact Hex|]. revert Ho. once_by_same.
  - apply IH in Hex; assumption.
  - apply IH in Hex; assumption.
  - apply IH in Hex; assumption.
Qed.

Lemma once_respond mid r w : once w -> once (respond mid r w).
Proof.
  unfold respond. destruct r; destruct (is_not_None mid); once_by_same.
Qed.

Lemma once_run_handler mid wrap p w : once w -> once (run_handler mid wrap p w).
Proof.
  intros Ho. unfold run_handler. destruct (exec p w) as [w1 o] eqn:Hex.
  apply once_exec in Hex; [|exact Ho].
  destruct o as [[v|e]|c].
  - apply once_respond. revert Hex. once_by_same.
  - apply once_respond. revert Hex. once_by_same.
  - revert Hex. once_by_same.
Qed.

Lemma once_stop r w : once w -> once (stop r w).
Proof.
  intros (A & N & B & C). unfold once. fields.
  rewrite map_app, map_map. cbn [fst].
  change (map (fun x : Z * future => fst x)) with (map (@fst Z future)).
  splits.
  - apply NoDup_app. splits.
    + exact A.
    + intros i Hin Hin'. apply list_elem_of_In in Hin, Hin'.
      apply in_map_iff in Hin'. destruct Hin' as ([i' fut] & <- & Hin').
      apply list_elem_of_In, elem_of_map_to_list, map_lookup_filter_Some in Hin'.
      destruct Hin' as [Hl Hlive]. unfold live in Hlive. cbn in Hlive.
      destruct (C _ Hin) as [_ Hd]. cbn in Hd. rewrite (Hd fut Hl) in Hlive. discriminate.
    + apply NoDup_fst_map_to_list.
  - exact N.
  - intros i fut Hl. rewrite lookup_fmap in Hl.
    destruct (_pending w !! i) as [fut'|] eqn:E; [|discriminate].
    inversion Hl; subst fut. exact (B i fut' E).
  - intros i Hin. apply in_app_or in Hin. split.
    + destruct Hin as [Hin|Hin]; [exact (proj1 (C i Hin))|].
      apply in_map_iff in Hin. destruct Hin as ([i' fut] & <- & Hin).
      apply list_elem_of_In, elem_of_map_to_list, map_lookup_filter_Some in Hin.
      destruct Hin as [Hl _]. destruct (B _ _ Hl) as [Hr _]. cbn. lia.
    + intros fut Hl. rewrite lookup_fmap in Hl.
      destruct (_pending w !! i) as [fut'|]; [|discriminate].
      inversion Hl. reflexivity.
Qed.

Lemma once_delete i w : once w -> once (with_pending (delete i (_pending w)) w).
Proof.
  intros (A & N & B & C). unfold once. fields. splits.
  - exact A.
  - exact N.
  - intros j fut Hl. apply lookup_delete_Some in Hl. destruct Hl as [_ Hl]. exact (B j fut Hl).
  - intros j Hin. destruct (C j Hin) as [Hlt Hd]. split; [exact Hlt|].
    intros fut Hl. apply lookup_delete_Some in Hl. destruct Hl as [_ Hl]. exact (Hd fut Hl).
Qed.

Lemma once_settle i r fut w :
  once w -> _pending w !! i = Some fut -> fut_done fut = false ->
  once (settle i r (with_pending (delete i (_pending w)) w)).
Proof.
  intros (A & N & B & C) Hl Hd. unfold once. fields.
  rewrite map_app. cbn [map fst]. splits.
  - apply NoDup_app. splits.
    + exact A.
    + intros j Hin Hin'. apply list_elem_of_singleton in Hin'. subst j.
      apply list_elem_of_In in Hin. destruct (C i Hin) as [_ Hd'].
      rewrite (Hd' fut Hl) in Hd. discriminate.
    + apply NoDup_singleton.
  - exact N.
  - intros j fut' Hl'. apply lookup_delete_Some in Hl'. destruct Hl' as [_ Hl'].
    exact (B j fut' Hl').
  - intros j Hin. apply in_app_or in Hin. destruct Hin as [Hin|[<-|[]]].
    + destruct (C j Hin) as [Hlt Hd']. split; [exact Hlt|].
      intros fut' Hl'. apply lookup_delete_Some in Hl'. destruct Hl' as [_ Hl'].
      exact (Hd' fut' Hl').
    + split; [exact (proj2 (proj1 (B i fut Hl)))|]. intros fut' Hl'.
      rewrite lookup_delete_eq in Hl'. discriminate.
Qed.

Lemma once_expire_detached w : once w -> once (expire_detached w).
Proof.
  intros (A & N & B & C). unfold once, expire_detached. fields.
  rewrite map_app, map_map. cbn [fst].
  change (map (fun x : Z * future => fst x)) with (map (@fst Z future)).
  splits.
  - apply NoDup_app. splits.
    + exact A.
    + intros i Hin Hin'. apply list_elem_of_In in Hin, Hin'.
      apply in_map_iff in Hin'. destruct Hin' as ([i' fut] & <- & Hin').
      apply list_elem_of_In, elem_of_map_to_list, map_lookup_filter_Some in Hin'.
      destruct Hin' as [Hl (_ & Hlive & _)]. cbn in Hlive.
      destruct (C _ Hin) as [_ Hd]. cbn in Hd. rewrite (Hd fut Hl) in Hlive. discriminate.
    + apply NoDup_fst_map_to_list.
  - exact N.
  - intros i fut Hl. apply map_lookup_filter_Some in Hl. destruct Hl as [Hl _].
    exact (B i fut Hl).
  - intros i Hin. apply in_app_or in Hin. destruct Hin as [Hin|Hin].
    + destruct (C i Hin) as [Hlt Hd]. split; [exact Hlt|].
      intros fut Hl. apply map_lookup_filter_Some in Hl. destruct Hl as [Hl _].
      exact (Hd fut Hl).
    + apply in_map_iff in Hin. destruct Hin as ([i' fut] & <- & Hin).
      apply list_elem_of_In, elem_of_map_to_list, map_lookup_filter_Some in Hin.
      destruct Hin as [Hl Ht]. split; [exact (proj2 (proj1 (B _ _ Hl)))|].
      intros fut' Hl'. apply map_lookup_filter_Some in Hl'. destruct Hl' as [Hl' Hnt].
      cbn in Hl'. rewrite Hl in Hl'. inversion Hl'; subst fut'.
      exfalso. apply Hnt. exact Ht.
Qed.

Section Once.
Variable loads : string -> option json.
Variable repr : json -> string.

Lemma once_dispatch method params w w1 act :
  _dispatch repr method params w = (w1, act) -> once w -> once w1.
Proof.
  unfold _dispatch. intros H.
  repeat match type of H with
         | context [if ?c then _ else _] => destruct c
         | context [match ?x with _ => _ end] => destruct x
         end;
    inversion H; subst; once_by_same.
Qed.

Lemma once_handle_message msg w : once w -> once (_handle_message repr msg w).
Proof.
  intros Ho.
  destruct msg as [|b|z|f|s|l|m]; try (apply once_stop; exact Ho).
  unfold _handle_message.
  destruct (dict_has m "result" || dict_has m "error").
  - destruct (hash_key (dict_get_or m "id" JNull)) as [i| |ty];
      [|exact Ho
       |destruct (Nat.eqb (size (_pending w)) 0); [exact Ho|apply once_stop; exact Ho]].
    destruct (_pending w !! i) as [fut|] eqn:Hl; [|exact Ho].
    destruct (fut_done fut) eqn:Hd; cbn [negb]; [apply once_delete; exact Ho|].
    destruct (dict_has m "error"); [|exact (once_settle i _ fut w Ho Hl Hd)].
    destruct (dict_get_or m "error" JNull);
      try (apply once_stop, once_delete; exact Ho).
    exact (once_settle i _ fut w Ho Hl Hd).
  - destruct (_dispatch repr (dict_get_or m "method" (JStr "")) (dict_get_or m "params" JNull) w)
      as [w1 act] eqn:Hd.
    apply once_dispatch in Hd; [|exact Ho].
    destruct act as [r|p wrap].
    + apply once_respond. exact Hd.
    + apply once_run_handler. exact Hd.
Qed.

Lemma once_loop_body line w : once w -> once (loop_body loads repr line w).
Proof.
  intros Ho. unfold loop_body. destruct line as [|b l]; [apply once_stop; exact Ho|].
  destruct (decode (b :: l)); [|apply once_stop; exact Ho].
  destruct (String.eqb (strip s) ""); [exact Ho|].
  destruct (loads (strip s)); [apply once_handle_message; exact Ho|].
  revert Ho. once_by_same.
Qed.

Lemma once_drain buf : forall w, once w -> once (drain loads repr buf w).
Proof.
  induction buf as [|line rest IH]; intros w Ho; cbn [drain].
  - revert Ho. once_by_same.
  - assert (H1 : once (loop_body loads repr line (with_inbuf rest w))).
    { apply once_loop_body. revert Ho. once_by_same. }
    destruct (main (loop_body loads repr line (with_inbuf rest w))); try exact H1.
    apply IH. exact H1.
Qed.

Lemma once_expire_main w : once w -> once (expire_main loads repr w).
Proof.
  intros Ho. unfold expire_main.
  destruct (main w) as [|mid wrap c|r]; try exact Ho.
  destruct (_pending w !! c) as [fut|] eqn:Hl; [|exact Ho].
  destruct (fut_waiter fut) as [k|]; [|exact Ho].
  destruct (fut_done fut) eqn:Hd; [rewrite andb_false_r; exact Ho|].
  destruct (fut_deadline fut <=? clock w)%N; cbn [andb negb]; [|exact Ho].
  pose proof (once_settle c (inr (timeout_error (fut_method fut))) fut w Ho Hl Hd) as H0.
  set (w1 := settle c _ _) in *.
  assert (H1 : once (run_handler mid wrap (k (inr (timeout_error (fut_method fut)))) w1))
    by (apply once_run_handler; exact H0).
  destruct (main (run_handler mid wrap (k (inr (timeout_error (fut_method fut)))) w1));
    try exact H1.
  apply once_drain. exact H1.
Qed.

Lemma once_tick w : once w -> once (tick loads repr w).
Proof.
  intros Ho. unfold tick.
  assert (H0 : once (with_clock (clock w + 1)%N w)) by (revert Ho; once_by_same).
  assert (H : once (expire_main loads repr (expire_detached (with_clock (clock w + 1)%N w))))
    by (apply once_expire_main, once_expire_detached; exact H0).
  cbn [exit_at with_clock].
  destruct (exit_at w) as [t|]; [|exact H].
  destruct (t <=? _)%N; [|exact H].
  apply once_stop. exact H0.
Qed.

Lemma once_start_calls calls : forall w,
  once w ->
  once (fold_left (fun w' call => _reverse_rpc (fst call) (snd call) Detached w') calls w).
Proof.
  induction calls as [|c calls IH]; intros w Ho; cbn [fold_left]; [exact Ho|].
  apply IH, once_reverse_rpc. exact Ho.
Qed.

Lemma once_start_ready w : once w -> once (start_ready w).
Proof.
  intros Ho. unfold start_ready. destruct (main w); try exact Ho.
  all: apply once_start_calls; revert Ho; once_by_same.
Qed.

Lemma once_step w ev : once w -> once (step loads repr w ev).
Proof.
  intros Ho. unfold step. destruct (main w); [| |exact Ho]; destruct ev.
  - apply once_start_ready, once_loop_body. exact Ho.
  - apply once_start_ready, once_tick. exact Ho.
  - revert Ho. once_by_same.
  - apply once_start_ready, once_tick. exact Ho.
Qed.

Lemma once_run evs : forall w, once w -> once (run loads repr w evs).
Proof.
  induction evs as [|ev evs IH]; intros w Ho; [exact Ho|].
  change (run loads repr w (ev :: evs)) with (run loads repr (step loads repr w ev) evs).
  apply IH, once_step. exact Ho.
Qed.

Lemma once_init skill : once (init skill).
Proof.
  unfold once. cbn. splits.
  - apply NoDup_nil_2.
  - lia.
  - intros i fut Hl. rewrite lookup_empty in Hl. discriminate.
  - intros i [].
Qed.

(** X9. Over any history no reverse call gets two outcomes: the ids
    in the record of outcomes (results, errors, time-outs, cancellations)
    are pairwise distinct, each is an id that was taken, and a call that has
    its outcome is no longer in [_pending], unless the process has ended and
    the entry is the cancelled future. *)
Theorem call_settles_at_most_once skill evs :
  let w := run loads repr (init skill) evs in
  NoDup (map fst (settled w))
  /\ forall i r, In (i, r) (settled w) ->
       i < _next_id w
       /\ match _pending w !! i with
          | None => True
          | Some fut => fut_done fut = true /\ ~ alive w
          end.
Proof.
  intros w. destruct (once_run evs _ (once_init skill)) as (A & _ & B & C). fold w in A, B, C.
  split; [exact A|]. intros i r Hin.
  assert (Hin' : In i (map fst (settled w))).
  { apply in_map_iff. exists (i, r). split; [reflexivity|exact Hin]. }
  destruct (C i Hin') as [Hlt Hd]. split; [exact Hlt|].
  destruct (_pending w !! i) as [fut|] eqn:Hl; [|exact I].
  split; [exact (Hd fut eq_refl)|].
  intros Ha. destruct (reg_init skill) as [R0 M0].
  destruct (run_inv loads repr evs _ R0 M0 Ha) as (R & _). fold w in R.
  destruct (R i fut Hl) as (_ & _ & Hnd). rewrite (Hd fut eq_refl) in Hnd. discriminate.
Qed.

(** X8. Every entry of [_pending] stands for a Request that was
    written: its key is an id between 1 and [_next_id - 1], and stdout holds
    the Request with that id and the method of the entry. *)
Theorem pending_call_was_sent skill evs i fut :
  let w := run loads repr (init skill) evs in
  _pending w !! i = Some fut ->
  1 <= i < _next_id w
  /\ exists params, In (request_frame i (fut_method fut) params) (stdout w).
Proof.
  intros w Hl. destruct (once_run evs _ (once_init skill)) as (_ & _ & B & _).
  exact (B i fut Hl).
Qed.

End Once.

(** ** Lines that are no Request *)

Section Noise.
Variable loads : string -> option json.
Variable repr : json -> string.

Lemma start_ready_nothing w : ready w = [] -> start_ready w = w.
Proof.
  intros Hr. unfold start_ready.
  destruct w as [t h p n mf dd out err c mn rd ib ex st]. cbn in *. subst rd.
  destruct mn; reflexivity.
Qed.

(** X13. Blank lines and lines that are no JSON text never reach a
    handler: from a server at [readline], a run of such lines leaves the
    whole state as it was except stderr, which gets one
    [Failed to parse JSON-RPC message: <text>] per line that is not blank,
    in order. *)
Theorem noise_is_logged_and_skipped lines : forall w,
  main w = AtReadline -> ready w = [] ->
  (forall line, In line lines -> noise loads line) ->
  run loads repr w (map EvRead lines)
  = with_stderr (stderr w ++ parse_failures lines) w.
Proof.
  induction lines as [|line lines IH]; intros w Hmain Hready Hnoise.
  - cbn. rewrite app_nil_r. destruct w; reflexivity.
  - cbn [map]. 
    change (run loads repr w (EvRead line :: map EvRead lines))
      with (run loads repr (step loads repr w (EvRead line)) (map EvRead lines)).
    destruct (Hnoise line (or_introl eq_refl)) as (Hne & text & Hd & Hcase).
    assert (Hrest : forall l, In l lines -> noise loads l)
      by (intros l Hl; apply Hnoise; right; exact Hl).
    unfold parse_failures. cbn [flat_map]. rewrite Hd. fold (parse_failures lines).
    unfold step. rewrite Hmain.
    destruct (String.eqb (strip text) "") eqn:Hs.
    + rewrite (blank_line_skipped loads repr line text w Hne Hd Hs).
      rewrite (start_ready_nothing w Hready). cbn [app]. apply IH; assumption.
    + destruct Hcase as [Hc|Hc]; [discriminate|].
      rewrite (malformed_line_logged loads repr line text w Hne Hd Hs Hc).
      rewrite start_ready_nothing by exact Hready.
      rewrite IH; try assumption. fields. rewrite <- app_assoc. reflexivity.
Qed.

(** X16. A Response nobody waits for is dropped in silence: when its
    [id] is no key of [_pending] (an unknown number, a string, [null], a
    fraction), the server at [readline] takes the line and is exactly as
    before: nothing written, nothing logged, no call settled. *)
Theorem unmatched_response_is_dropped w line m :
  main w = AtReadline -> ready w = [] ->
  reads loads line (JDict m) -> is_response m = true ->
  match response_key m with
  | KInt i => _pending w !! i = None
  | KOther => True
  | KUnhashable _ => False
  end ->
  step loads repr w (EvRead line) = w.
Proof.
  intros Hmain Hready Hreads Hresp Hkey.
  unfold step. rewrite Hmain.
  rewrite (loop_body_reads loads repr line (JDict m) w Hreads).
  unfold is_response in Hresp. unfold response_key in Hkey.
  unfold _handle_message. rewrite Hresp.
  destruct (hash_key (dict_get_or m "id" JNull)) as [i| |ty].
  - rewrite Hkey. apply start_ready_nothing. exact Hready.
  - apply start_ready_nothing. exact Hready.
  - destruct Hkey.
Qed.

End Noise.

(** The key an integral float is: that of the integer. *)
Lemma hash_key_integral q i : Qeq q (inject_Z i) -> hash_key (JFloat (FFinite q)) = KInt i.
Proof.
  intros Hq. unfold hash_key.
  assert (Hred : Qred q = inject_Z i).
  { rewrite (Qred_complete _ _ Hq). unfold inject_Z, Qred.
    pose proof (Z.ggcd_gcd i 1) as Hg. pose proof (Z.ggcd_correct_divisors i 1) as Hc.
    destruct (Z.ggcd i 1) as [g [a b]]. cbn in Hg. cbn [snd] in *.
    rewrite Z.gcd_1_r in Hg. subst g. destruct Hc as [Ha Hb].
    rewrite Z.mul_1_l in Ha, Hb. subst i b. reflexivity. }
  rewrite Hred. reflexivity.
Qed.

Section Matching.
Variable repr : json -> string.

(** X17. A Response is matched to its call by the equality of
    Python on the [id]: an integer, a float with the same integral value
    (1.0) and a boolean ([true] for 1, [false] for 0) all resolve the
    pending call with that number: the entry leaves [_pending], the call
    gets the [result], and nothing is written. *)
Theorem response_id_is_matched_by_value w m i fut :
  dict_has m "error" = false -> dict_has m "result" = true ->
  _pending w !! i = Some fut -> fut_done fut = false ->
  match dict_get_or m "id" JNull with
  | JInt z => z = i
  | JBool b => i = (if b then 1 else 0)
  | JFloat (FFinite q) => Qeq q (inject_Z i)
  | _ => False
  end ->
  let w' := _handle_message repr (JDict m) w in
  _pending w' !! i = None
  /\ settled w' = (settled w ++ [(i, inl (dict_get_or m "result" JNull))])%list
  /\ stdout w' = stdout w /\ stderr w' = stderr w /\ main w' = main w.
Proof.
  intros He Hr Hl Hd Hid w'. subst w'.
  assert (Hk : hash_key (dict_get_or m "id" JNull) = KInt i).
  { destruct (dict_get_or m "id" JNull) as [|b|z|f|s|l|d].
    - destruct Hid.
    - subst i. reflexivity.
    - subst z. reflexivity.
    - destruct f as [q| |]; [apply hash_key_integral; exact Hid|destruct Hid|destruct Hid].
    - destruct Hid.
    - destruct Hid.
    - destruct Hid. }
  unfold _handle_message. rewrite Hr, He, Hk, Hl, Hd. cbn [orb negb].
  fields. splits; try reflexivity. apply lookup_delete_eq.
Qed.

End Matching.

(** ** The scheduled exit *)







Section Exit.
Variable loads : string -> option json.
Variable repr : json -> string.















End Exit.

(** ** A handler suspended in a reverse call *)

Section Suspended.
Variable loads : string -> option json.
Variable repr : json -> string.





End Suspended.

(** ** The data directory, and the registry of calls *)

Section DataDir.
Variable loads : string -> option json.
Variable repr : json -> string.

(** X19. [ctx.data_dir] after [skill/load].  A truthy [dataDir] is
    what [data_dir] returns from then on; without one, a directory given
    earlier stays; with none at all, the default is [skills/<id>/data] under
    the [id] of the manifest just given ([unknown] when it has none), a
    manifest that is truthy but no object makes [data_dir] raise
    [AttributeError], and a missing or falsy manifest leaves [data_dir] as
    it was. *)
Theorem load_sets_data_dir w params :
  let p := match params with JDict d => d | _ => [] end in
  let w' := fst (_dispatch repr (JStr "skill/load") params w) in
  let given := dict_get_or p "dataDir" JNull in
  let manifest := dict_get_or p "manifest" JNull in
  (truthy given = true -> data_dir repr w' = inl given)
  /\ (truthy given = false -> truthy (_data_dir w) = true ->
        data_dir repr w' = inl (_data_dir w))
  /\ (truthy given = false -> truthy (_data_dir w) = false ->
        match manifest with
        | JDict (kv :: m) =>
            data_dir repr w'
            = inl (JStr ("skills/"
                         ++ py_str repr (dict_get_or (kv :: m) "id" (JStr "unknown"))
                         ++ "/data"))
        | other =>
            if truthy other then data_dir repr w' = inr (no_attribute_get other)
            else data_dir repr w' = data_dir repr w
        end).
Proof.
  intros p w' given manifest. subst w' given manifest.
  unfold _dispatch. cbn [str_eq String.eqb Ascii.eqb Bool.eqb]. cbv zeta.
  subst p. set (p := match params with JDict d => d | _ => [] end).
  set (given := dict_get_or p "dataDir" JNull).
  set (manifest := dict_get_or p "manifest" JNull). cbn [fst].
  splits.
  - intros Hg. rewrite Hg. unfold data_dir. fields. rewrite Hg. reflexivity.
  - intros Hg Hd. rewrite Hg. unfold data_dir.
    destruct (truthy manifest); fields; rewrite Hd; reflexivity.
  - intros Hg Hd. rewrite Hg. unfold data_dir.
    subst manifest. unfold dict_get_or.
    destruct (dict_get p "manifest") as [mf|] eqn:Hmf.
    + destruct mf as [|b|z|f|s|l|[|kv m]].
      8:{ cbn [truthy]. fields. rewrite Hd. reflexivity. }
      all: match goal with
           | |- context [if truthy ?x then with_manifest _ _ else _] =>
               destruct (truthy x) eqn:Ht
           end;
        [fields; rewrite Hd, Ht; first [reflexivity | cbn in Ht; discriminate]
        |reflexivity].
    + cbn [truthy]. fields. rewrite Hd. reflexivity.
Qed.

(** X10. While the process runs, every pending call is unsettled and
    its time-out lies ahead, at most 30 s (300 ticks) away: no call stays
    registered past its deadline.  A call awaited by the main task is the
    one the running handler is suspended in; every other call is a detached
    one. *)
Theorem pending_calls_are_live skill evs i fut :
  let w := run loads repr (init skill) evs in
  alive w -> _pending w !! i = Some fut ->
  fut_done fut = false
  /\ (clock w < fut_deadline fut <= clock w + REVERSE_RPC_TIMEOUT)%N
  /\ match fut_waiter fut with
     | MainTask _ => exists mid wrap, main w = InHandler mid wrap i
     | Detached => True
     end.
Proof.
  intros w Ha Hl. destruct (reg_init skill) as [R0 M0].
  destruct (run_inv loads repr evs _ R0 M0 Ha) as (R & M & _). fold w in R, M.
  destruct (R i fut Hl) as (_ & Hd & Hn). split; [exact Hn|]. split; [exact Hd|].
  destruct (fut_waiter fut) as [k|] eqn:Hw; [|exact I].
  exact (M i fut k Hl Hw).
Qed.

End DataDir.

(** ** The lifecycle methods *)

Section Lifecycle.
Variable repr : json -> string.


End Lifecycle.

(** ** The properties at concrete runs *)


Lemma unknown_tool_is_reported_witness :
  let m := [("jsonrpc", JStr "2.0"); ("id", JInt 3); ("method", JStr "tools/call");
            ("params", JDict [("name", JStr "nope")])] in
  _handle_message PyLib.repr (JDict m) (init notes_skill)
  = _send_error (JInt 3) (-32603) "Unknown tool: nope" (init notes_skill).
Proof.
  intros m.
  rewrite (unknown_tool_is_reported PyLib.repr (init notes_skill) m eq_refl eq_refl).
  - reflexivity.
  - intros s Hs. change (JStr "nope" = JStr s) in Hs. inversion Hs. reflexivity.
Defined.


Lemma advertised_tools_are_callable_witness :
  advertise add_note = add_note_advert
  /\ forall args,
       _dispatch PyLib.repr (JStr "tools/call")
         (JDict [("name", JStr "add_note"); ("arguments", args)]) (init notes_skill)
       = (init notes_skill, Invoke (execute_add_note args) tool_result).
Proof.
  destruct (advertised_tools_are_callable PyLib.loads PyLib.repr notes_skill [] JNull)
    as [_ H].
  exact (H "add_note" add_note (or_introl eq_refl)).
Defined.

Lemma registry_keeps_last_tool_witness :
  tools_get (_tools (init twice_skill)) "add_note" = Some late_add_note
  /\ _tools (init notes_skill) = [("add_note", add_note)].
Proof.
  split.
  - exact (proj1 (proj2 (registry_keeps_last_tool twice_skill)) "add_note").
  - apply (proj2 (proj2 (registry_keeps_last_tool notes_skill))).
    apply NoDup_singleton.
Defined.

Lemma pending_call_was_sent_witness :
  let w := run' (init kitchen_sink)
             [EvLine "{'jsonrpc':'2.0','id':1,'method':'skill/unload'}"] in
  1 <= 1 < _next_id w
  /\ exists params, In (request_frame 1 "state/set" params) (stdout w).
Proof.
  intros w.
  set (fut := {| fut_method := "state/set"; fut_deadline := 300;
                 fut_waiter := Detached; fut_done := false |}).
  assert (Hl : _pending w !! 1 = Some fut) by (vm_compute; reflexivity).
  exact (pending_call_was_sent PyLib.loads PyLib.repr kitchen_sink
           [EvLine "{'jsonrpc':'2.0','id':1,'method':'skill/unload'}"] 1 fut Hl).
Defined.

Lemma call_settles_at_most_once_witness :
  let w := run' (init kitchen_sink)
             [EvLine "{'jsonrpc':'2.0','id':1,'method':'skill/unload'}";
              EvLine "{'jsonrpc':'2.0','id':1,'result':null}"] in
  NoDup (map fst (settled w)) /\ 1 < _next_id w.
Proof.
  intros w.
  destruct (call_settles_at_most_once PyLib.loads PyLib.repr kitchen_sink
              [EvLine "{'jsonrpc':'2.0','id':1,'method':'skill/unload'}";
               EvLine "{'jsonrpc':'2.0','id':1,'result':null}"]) as [Hnd H].
  cbv zeta in H. unfold w, run'.
  assert (Hin : In (1, inl JNull)
                  (settled (run PyLib.loads PyLib.repr (init kitchen_sink)
                     [EvLine "{'jsonrpc':'2.0','id':1,'method':'skill/unload'}";
                      EvLine "{'jsonrpc':'2.0','id':1,'result':null}"])))
    by (vm_compute; left; reflexivity).
  split; [exact Hnd|exact (proj1 (H 1 (inl JNull) Hin))].
Defined.

Lemma pending_calls_are_live_witness :
  (clock (run' (init kitchen_sink)
            [EvLine "{'jsonrpc':'2.0','id':1,'method':'skill/unload'}"; EvTick])
   < 300
   <= clock (run' (init kitchen_sink)
               [EvLine "{'jsonrpc':'2.0','id':1,'method':'skill/unload'}"; EvTick])
      + REVERSE_RPC_TIMEOUT)%N.
Proof.
  unfold run'.
  assert (Hl : _pending (run PyLib.loads PyLib.repr (init kitchen_sink)
                 [EvLine "{'jsonrpc':'2.0','id':1,'method':'skill/unload'}"; EvTick]) !! 1
               = Some {| fut_method := "state/set"; fut_deadline := 300;
                         fut_waiter := Detached; fut_done := false |})
    by (vm_compute; reflexivity).
  assert (Ha : alive (run PyLib.loads PyLib.repr (init kitchen_sink)
                [EvLine "{'jsonrpc':'2.0','id':1,'method':'skill/unload'}"; EvTick]))
    by (vm_compute; exact I).
  destruct (pending_calls_are_live PyLib.loads PyLib.repr kitchen_sink
              [EvLine "{'jsonrpc':'2.0','id':1,'method':'skill/unload'}"; EvTick]
              1 _ Ha Hl) as (_ & H & _).
  exact H.
Defined.

Lemma detached_calls_start_in_order_witness :
  let w := fst (exec (ctx_set_state (JDict [("a", JInt 1)])
                        (ctx_emit_event "summary" JNull (Return VNone)))
                     (init notes_skill)) in
  stdout (start_ready w)
  = [request_frame 1 "state/set" (Some (JDict [("partial", JDict [("a", JInt 1)])]));
     request_frame 2 "intelligence/emitEvent"
       (Some (JDict [("eventType", JStr "summary"); ("data", JNull)]))]
  /\ ready (start_ready w) = [].
Proof.
  intros w.
  destruct (detached_calls_start_in_order w I) as (A & B & _).
  split; [exact B|exact A].
Defined.


Lemma noise_is_logged_and_skipped_witness :
  run' (init notes_skill) (map EvRead [line ""; line "not json"; line "   "])
  = with_stderr ["Failed to parse JSON-RPC message: not json"] (init notes_skill).
Proof.
  refine (noise_is_logged_and_skipped PyLib.loads PyLib.repr
            [line ""; line "not json"; line "   "] (init notes_skill) eq_refl eq_refl _).
  intros l [<-|[<-|[<-|[]]]]; (split; [discriminate|]).
  - eexists. split; [vm_compute; reflexivity|left; vm_compute; reflexivity].
  - eexists. split; [vm_compute; reflexivity|right; vm_compute; reflexivity].
  - eexists. split; [vm_compute; reflexivity|left; vm_compute; reflexivity].
Defined.

Lemma non_object_line_ends_loop_witness :
  let w' := step' (init notes_skill) (EvLine "[1, 2]") in
  (exists e, main w' = Stopped (Crashed e)
             /\ (exn_class e = "TypeError" \/ exn_class e = "AttributeError"))
  /\ stdout w' = [] /\ stderr w' = [].
Proof.
  refine (non_object_line_ends_loop PyLib.loads PyLib.repr (init notes_skill)
            (line "[1, 2]") (JList [JInt 1; JInt 2]) eq_refl _ _).
  - split; [discriminate|]. eexists.
    split; [vm_compute; reflexivity|split; vm_compute; reflexivity].
  - intros m Hm. discriminate Hm.
Defined.

Lemma malformed_response_ends_loop_witness :
  let m := [("jsonrpc", JStr "2.0"); ("id", JList []); ("result", JNull)] in
  main (_handle_message PyLib.repr (JDict m)
          (run' (init kitchen_sink)
             [EvLine "{'jsonrpc':'2.0','id':1,'method':'skill/unload'}"]))
  = Stopped (Crashed (Exception "TypeError" "unhashable type: 'list'"))
  /\ _handle_message PyLib.repr (JDict m) (init kitchen_sink) = init kitchen_sink.
Proof.
  intros m. unfold run'.
  assert (Hl : _pending (run PyLib.loads PyLib.repr (init kitchen_sink)
                 [EvLine "{'jsonrpc':'2.0','id':1,'method':'skill/unload'}"]) !! 1
               = Some {| fut_method := "state/set"; fut_deadline := 300;
                         fut_waiter := Detached; fut_done := false |})
    by (vm_compute; reflexivity).
  split.
  - destruct (malformed_response_ends_loop PyLib.repr
                (run PyLib.loads PyLib.repr (init kitchen_sink)
                   [EvLine "{'jsonrpc':'2.0','id':1,'method':'skill/unload'}"])
                m eq_refl) as [H _].
    destruct (H (ex_intro _ "list" eq_refl)) as [_ Hc].
    exact (Hc 1 _ Hl).
  - destruct (malformed_response_ends_loop PyLib.repr (init kitchen_sink) m eq_refl)
      as [H _].
    destruct (H (ex_intro _ "list" eq_refl)) as [Hd _].
    exact (Hd eq_refl).
Defined.

Lemma unmatched_response_is_dropped_witness :
  step' (init notes_skill) (EvLine "{'jsonrpc':'2.0','id':'abc','result':null}")
  = init notes_skill.
Proof.
  refine (unmatched_response_is_dropped PyLib.loads PyLib.repr (init notes_skill)
            (line "{'jsonrpc':'2.0','id':'abc','result':null}")
            [("jsonrpc", JStr "2.0"); ("id", JStr "abc"); ("result", JNull)]
            eq_refl eq_refl _ eq_refl I).
  split; [discriminate|]. eexists.
  split; [vm_compute; reflexivity|split; vm_compute; reflexivity].
Defined.

Lemma response_id_is_matched_by_value_witness :
  let w := run' (init kitchen_sink)
             [EvLine "{'jsonrpc':'2.0','id':1,'method':'skill/unload'}"] in
  let w' := run' w [EvLine "{'jsonrpc':'2.0','id':1.0,'result':'ok'}"] in
  _pending w' !! 1 = None /\ settled w' = [(1, inl (JStr "ok"))].
Proof.
  intros w w'.
  set (fut := {| fut_method := "state/set"; fut_deadline := 300;
                 fut_waiter := Detached; fut_done := false |}).
  assert (Hl : _pending w !! 1 = Some fut) by (vm_compute; reflexivity).
  assert (Hq : Qeq (1 # 1) (inject_Z 1)) by reflexivity.
  destruct (response_id_is_matched_by_value PyLib.repr w
              [("jsonrpc", JStr "2.0"); ("id", JFloat (FFinite (1 # 1)));
               ("result", JStr "ok")] 1 fut eq_refl eq_refl Hl eq_refl Hq)
    as (H1 & H2 & _).
  assert (Hw' : w' = _handle_message PyLib.repr
                       (JDict [("jsonrpc", JStr "2.0"); ("id", JFloat (FFinite (1 # 1)));
                               ("result", JStr "ok")]) w)
    by (vm_compute; reflexivity).
  rewrite Hw'. split; [exact H1|]. rewrite H2. vm_compute. reflexivity.
Defined.


Lemma load_sets_data_dir_witness :
  let w' := fst (_dispatch PyLib.repr (JStr "skill/load")
                   (JDict [("manifest", JDict [("id", JStr "notes")])]) (init notes_skill)) in
  data_dir PyLib.repr w' = inl (JStr "skills/notes/data").
Proof.
  intros w'.
  exact (proj2 (proj2 (load_sets_data_dir PyLib.repr (init notes_skill)
                         (JDict [("manifest", JDict [("id", JStr "notes")])])))
           eq_refl eq_refl).
Defined.

